(** * The tab-scoped event router of the chat panel (connector.ts)

    A shallow embedding of the [Connector] class of
    [plugins/amazonq/mynah-ui/src/mynah-ui/ui/connector.ts] and the
    properties its specification states about it.

    Layout: JavaScript values and [JSON.parse]; the tab registry; the effect
    monad the router's methods run in; the methods, one definition per method
    of the class; the event loop with its timers; then the theorems. *)

From Stdlib Require Import NArith ZArith Ascii String.
From stdpp Require Import base option list strings gmap fin_maps.

Open Scope string_scope.
Open Scope list_scope.
Open Scope nat_scope.

(** ** JavaScript values *)

Module JS.

(** A JavaScript string is a sequence of 16-bit code units. *)
Definition jsstring := list N.

(** The code units of an ASCII literal of the source. *)
Definition js (s : string) : jsstring :=
  (λ a, N_of_ascii a) <$> list_ascii_of_string s.

(** The values [JSON.parse] produces, with [undefined] added so that the
    same type serves for the objects the router passes through untouched.
    A number keeps the text of its literal: the router never computes with
    one. An object lists its members in source order; a later member of the
    same name shadows an earlier one (see [get]). *)
#[warnings="-register-all"]
Inductive JsValue :=
| JsUndefined
| JsNull
| JsBool (b : bool)
| JsNumber (literal : jsstring)
| JsString (s : jsstring)
| JsArray (elements : list JsValue)
| JsObject (members : list (jsstring * JsValue)).

Inductive Error := SyntaxError | TypeError.

(** [o.name] for a value [o] that is neither [undefined] nor [null], and a
    [name] that none of the built-in prototypes defines (so not [length],
    not an index): the own property of an object, [undefined] otherwise.
    On [undefined] and [null] the access throws. *)
Definition own_property (name : jsstring) (members : list (jsstring * JsValue))
  : JsValue :=
  match list_find (λ kv, kv.1 = name) (reverse members) with
  | Some (_, (_, v)) => v
  | None => JsUndefined
  end.

Definition get (o : JsValue) (name : jsstring) : Error + JsValue :=
  match o with
  | JsUndefined | JsNull => inl TypeError
  | JsObject members => inr (own_property name members)
  | _ => inr JsUndefined
  end.

(** [v === undefined], and [v === 'literal'] for a string literal: strict
    equality holds only between values of the same type. *)
Definition is_undefined (v : JsValue) : bool :=
  match v with JsUndefined => true | _ => false end.

Definition is_string (v : JsValue) (literal : jsstring) : bool :=
  match v with JsString s => bool_decide (s = literal) | _ => false end.

End JS.

(** ** JSON.parse

    The text grammar of ECMA-404, as [JSON.parse] without a reviver reads
    it. The router is verified for every parser (it is a parameter of the
    method that uses it); this one evaluates the concrete examples. *)

Module JSON.
Import JS.

Local Open Scope N_scope.
Local Open Scope list_scope.

Definition is_ws (c : N) : bool :=
  (c =? 9) || (c =? 10) || (c =? 13) || (c =? 32).

Fixpoint skip_ws (s : list N) : list N :=
  match s with
  | c :: r => if is_ws c then skip_ws r else s
  | [] => []
  end.

Definition is_digit (c : N) : bool := (48 <=? c) && (c <=? 57).

Definition hex_digit (c : N) : option N :=
  if is_digit c then Some (c - 48)
  else if (97 <=? c) && (c <=? 102) then Some (c - 87)
  else if (65 <=? c) && (c <=? 70) then Some (c - 55)
  else None.

(** The character a two-character escape stands for. *)
Definition unescape (c : N) : option N :=
  if c =? 34 then Some 34        (* quotation mark *)
  else if c =? 92 then Some 92   (* reverse solidus *)
  else if c =? 47 then Some 47   (* solidus *)
  else if c =? 98 then Some 8    (* b: backspace *)
  else if c =? 102 then Some 12  (* f: form feed *)
  else if c =? 110 then Some 10  (* n: line feed *)
  else if c =? 114 then Some 13  (* r: carriage return *)
  else if c =? 116 then Some 9   (* t: tab *)
  else None.

(** The rest of a string literal, after its opening quote. *)
Fixpoint parse_chars (s : list N) (acc : list N) : option (jsstring * list N) :=
  match s with
  | [] => None
  | c :: r =>
    if c =? 34 then Some (reverse acc, r)
    else if c =? 92 then
      match r with
      | [] => None
      | e :: r1 =>
        if e =? 117 then
          match r1 with
          | h1 :: h2 :: h3 :: h4 :: r2 =>
            match hex_digit h1, hex_digit h2, hex_digit h3, hex_digit h4 with
            | Some d1, Some d2, Some d3, Some d4 =>
              parse_chars r2 (((d1 * 16 + d2) * 16 + d3) * 16 + d4 :: acc)
            | _, _, _, _ => None
            end
          | _ => None
          end
        else
          match unescape e with
          | Some x => parse_chars r1 (x :: acc)
          | None => None
          end
      end
    else if c <? 32 then None
    else parse_chars r (c :: acc)
  end.

Fixpoint take_digits (s : list N) : list N * list N :=
  match s with
  | c :: r =>
    if is_digit c then let '(ds, r') := take_digits r in (c :: ds, r')
    else ([], s)
  | [] => ([], [])
  end.

(** A number literal: an optional minus sign; a single zero or a run of
    digits that does not start with zero; an optional fraction (a point and
    at least one digit); an optional exponent (e or E, an optional sign, at
    least one digit). *)
Definition parse_number (s : list N) : option (jsstring * list N) :=
  let '(sign, s) :=
    match s with
    | c :: r => if c =? 45 then ([c], r) else ([], s)
    | [] => ([], s)
    end in
  '(int, s) ←
    match s with
    | c :: r =>
      if c =? 48 then Some ([c], r)
      else if is_digit c then Some (take_digits s)
      else None
    | [] => None
    end;
  '(frac, s) ←
    match s with
    | c :: r =>
      if c =? 46 then
        match take_digits r with
        | ([], _) => None
        | (ds, r') => Some (c :: ds, r')
        end
      else Some ([], s)
    | [] => Some ([], s)
    end;
  '(exp, s) ←
    match s with
    | c :: r =>
      if (c =? 101) || (c =? 69) then
        let '(sg, r) :=
          match r with
          | d :: r' => if (d =? 43) || (d =? 45) then ([d], r') else ([], r)
          | [] => ([], r)
          end in
        match take_digits r with
        | ([], _) => None
        | (ds, r') => Some (c :: sg ++ ds, r')
        end
      else Some ([], s)
    | [] => Some ([], s)
    end;
  Some (sign ++ int ++ frac ++ exp, s).

Fixpoint strip_prefix (p s : list N) : option (list N) :=
  match p, s with
  | [], _ => Some s
  | a :: p', b :: s' => if a =? b then strip_prefix p' s' else None
  | _ :: _, [] => None
  end.

Fixpoint parse_value (fuel : nat) (s : list N) : option (JsValue * list N) :=
  match fuel with
  | O => None
  | S fuel =>
    match skip_ws s with
    | [] => None
    | c :: r =>
      if c =? 123 then                       (* { *)
        match skip_ws r with
        | c' :: r' =>
          if c' =? 125 then Some (JsObject [], r') else parse_members fuel r []
        | [] => None
        end
      else if c =? 91 then                   (* [ *)
        match skip_ws r with
        | c' :: r' =>
          if c' =? 93 then Some (JsArray [], r') else parse_elements fuel r []
        | [] => None
        end
      else if c =? 34 then
        '(str, r') ← parse_chars r []; Some (JsString str, r')
      else if c =? 116 then
        r' ← strip_prefix (js "true") (c :: r); Some (JsBool true, r')
      else if c =? 102 then
        r' ← strip_prefix (js "false") (c :: r); Some (JsBool false, r')
      else if c =? 110 then
        r' ← strip_prefix (js "null") (c :: r); Some (JsNull, r')
      else
        '(lit, r') ← parse_number (c :: r); Some (JsNumber lit, r')
    end
  end
with parse_elements (fuel : nat) (s : list N) (acc : list JsValue)
  : option (JsValue * list N) :=
  match fuel with
  | O => None
  | S fuel =>
    '(v, r) ← parse_value fuel s;
    match skip_ws r with
    | c :: r' =>
      if c =? 44 then parse_elements fuel r' (v :: acc)
      else if c =? 93 then Some (JsArray (reverse (v :: acc)), r')
      else None
    | [] => None
    end
  end
with parse_members (fuel : nat) (s : list N) (acc : list (jsstring * JsValue))
  : option (JsValue * list N) :=
  match fuel with
  | O => None
  | S fuel =>
    match skip_ws s with
    | c :: r =>
      if c =? 34 then
        '(k, r) ← parse_chars r [];
        match skip_ws r with
        | c1 :: r =>
          if c1 =? 58 then
            '(v, r) ← parse_value fuel r;
            match skip_ws r with
            | c2 :: r =>
              if c2 =? 44 then parse_members fuel r ((k, v) :: acc)
              else if c2 =? 125 then
                Some (JsObject (reverse ((k, v) :: acc)), r)
              else None
            | [] => None
            end
          else None
        | [] => None
        end
      else None
    | [] => None
    end
  end.

(** [JSON.parse(text)]: [None] stands for the [SyntaxError] it throws. Every
    nested call of the parser follows at most one consumed character, so
    twice the length of the text bounds the depth. *)
Definition parse (text : jsstring) : option JsValue :=
  '(v, r) ← parse_value (2 * length text + 2) text;
  match skip_ws r with
  | [] => Some v
  | _ :: _ => None
  end.

End JSON.

(** ** The tab registry *)

Module TabsStorage.

(** Modelled from the spec: the [Tab] declaration of [./storages/tabsStorage],
    which is not part of the sources at hand. The fields are those of the
    object literal in [onTabAdd] and the one [onUpdateTabType] reads; the
    category and the status are the strings the router compares them with. *)
Record Tab := {
  id : string;
  type : string;
  status : string;
  isSelected : bool;
  openInteractionType : option string;
}.

Definition select (b : bool) (tab : Tab) : Tab :=
  {| id := id tab; type := type tab; status := status tab; isSelected := b;
     openInteractionType := openInteractionType tab |}.

(** Modelled from the spec: the [TabsStorage] class of
    [./storages/tabsStorage], of which only the calls are at hand. The
    registry is a mapping from tab identifier to [Tab], read and written
    through get, add, delete and set-selected. *)
Definition getTab (tabID : string) (tabs : gmap string Tab) : option Tab :=
  tabs !! tabID.

(** Modelled from the spec: [addTab] inserts the new tab; if the identifier
    already exists it overwrites. At most one tab is marked selected at a
    time: a tab that comes in marked selected is the only marked one
    afterwards, the others are unmarked. *)
Definition addTab (tab : Tab) (tabs : gmap string Tab) : gmap string Tab :=
  <[id tab := tab]> (if isSelected tab then select false <$> tabs else tabs).

(** Modelled from the spec: [deleteTab] deletes from the registry. *)
Definition deleteTab (tabID : string) (tabs : gmap string Tab) : gmap string Tab :=
  delete tabID tabs.

(** Modelled from the spec: the selection is the tab whose selection flag
    is set, or none. The registry keeps no other record of it. (Should
    several tabs be marked, the first in the registry's enumeration.) *)
Definition selectedTabs (tabs : gmap string Tab) : list string :=
  (map_to_list (filter (λ kv, isSelected kv.2 = true) tabs)).*1.

Definition selectedTab (tabs : gmap string Tab) : option string :=
  head (selectedTabs tabs).

(** Modelled from the spec: [setSelectedTab] marks the identifier selected,
    unmarks the previously selected tab (if different), and returns the
    previous selection's identifier (or none). On an identifier that is not
    in the registry it changes nothing. *)
Definition setSelectedTab (tabID : string) (tabs : gmap string Tab)
  : option string * gmap string Tab :=
  let prev := selectedTab tabs in
  match tabs !! tabID with
  | None => (prev, tabs)
  | Some _ =>
    let unmarked :=
      match prev with
      | Some p => alter (select false) p tabs
      | None => tabs
      end in
    (prev, alter (select true) tabID unmarked)
  end.

(** The invariant of the data model: at most one tab is marked selected. *)
Definition at_most_one_selected (tabs : gmap string Tab) : Prop :=
  ∀ i j ti tj,
    tabs !! i = Some ti → tabs !! j = Some tj →
    isSelected ti = true → isSelected tj = true → i = j.

End TabsStorage.

(** ** Effects and the monad of the router's methods *)

Import JS TabsStorage.

(** [ChatPayload], as the source declares it. *)
Record ChatPayload := {
  chatMessage : string;
  chatCommand : option string;
}.

(** The [action] parameter of [onFormButtonClick]. *)
Module FormAction.
Record t := {
  id : string;
  text : option string;
  formItemValues : option (list (string * string));
}.
End FormAction.

(** What the router hands on: it looks into none of these but the tab
    identifier and the action's [id]. *)
Inductive Value :=
| Undefined
| Str (s : string)
| Bool (b : bool)
| Num (n : Z)
| Obj (o : JsValue)
| Payload (p : ChatPayload)
| Action (a : FormAction.t).

Definition opt_str (o : option string) : Value :=
  match o with Some s => Str s | None => Undefined end.

(** The four sub-connectors the constructor creates. *)
Inductive Handler :=
| cwChatConnector
| featureDevChatConnector
| codeTransformChatConnector
| amazonqCommonsConnector.

(** The one closure the router hands to a timer: calling
    [requestGenerativeAIAnswer tabID payload] again. *)
Inductive Callback :=
| again (tabID : string) (payload : ChatPayload).

(** The two methods the router registers as window listeners. *)
Inductive Listener := onMessage | onFocus.

(** Everything a method does to the world outside the router's own fields,
    in the order it does it. The sub-connectors are collaborators: a call
    into one is recorded and taken to return normally. The constructor
    hands them the router's own registry object, so a handler that is
    called finds the registry as it is at the time of its call: a method
    records every effect together with that registry (see [seen]). *)
Inductive Effect :=
| Call (target : Handler) (method : string) (args : list Value)
| sendMessageToExtension (message : list (string * string))
| setTimeout (callback : Callback) (ms : nat)
| addEventListener (event : string) (listener : Listener)
| newPromise (p : nat)
| resolve (p : nat)
| reject (p : nat) (e : Error).

(** The router's own mutable fields. [onMessageReceived] records whether
    that optional property was given. *)
Record Connector := {
  tabsStorage : gmap string Tab;
  isUIReady : bool;
  onMessageReceived : bool;
}.

(** The constructor keeps the registry it is given and starts not ready. *)
Definition constructor (tabs : gmap string Tab) (onMessageReceived : bool)
  : Connector :=
  {| tabsStorage := tabs; isUIReady := false;
     onMessageReceived := onMessageReceived |}.

(** The router together with the counter that names fresh promises. *)
Record Runtime := {
  this : Connector;
  nextPromise : nat;
}.

Inductive Completion (A : Type) :=
| Normal (a : A)
| Throw (e : Error).
Arguments Normal {A} a.
Arguments Throw {A} e.

Definition M (A : Type) : Type :=
  Runtime → Completion A * Runtime * list (Effect * gmap string Tab).

(** A run of a method: how it completes, the router it leaves, and its
    effects in order. *)
Definition run {A} (m : M A) (rt : Runtime)
  : Completion A * Runtime * list Effect :=
  ((m rt).1.1, (m rt).1.2, (m rt).2.*1).

(** The same effects, each with the registry as it was when it happened. *)
Definition seen {A} (m : M A) (rt : Runtime)
  : list (Effect * gmap string Tab) :=
  (m rt).2.
Definition completion {A} (r : Completion A * Runtime * list Effect) := r.1.1.
Definition final {A} (r : Completion A * Runtime * list Effect) := r.1.2.
Definition effects {A} (r : Completion A * Runtime * list Effect) := r.2.

#[global] Instance M_ret : MRet M := λ A a rt, (Normal a, rt, []).

#[global] Instance M_bind : MBind M := λ A B f m rt,
  match m rt with
  | (Normal a, rt', es) =>
    let '(r, rt'', es') := f a rt' in (r, rt'', es ++ es')
  | (Throw e, rt', es) => (Throw e, rt', es)
  end.

Definition throw {A} (e : Error) : M A := λ rt, (Throw e, rt, []).
Definition emit (e : Effect) : M unit :=
  λ rt, (Normal tt, rt, [(e, tabsStorage (this rt))]).
Definition skip : M unit := mret tt.
Definition gets {A} (f : Connector → A) : M A := λ rt, (Normal (f (this rt)), rt, []).
Definition modify (f : Connector → Connector) : M unit :=
  λ rt, (Normal tt, {| this := f (this rt); nextPromise := nextPromise rt |}, []).

Definition call (target : Handler) (method : string) (args : list Value) : M unit :=
  emit (Call target method args).

(** [obj.prop] on a value that may be [undefined]: throws on [undefined]. *)
Definition prop {A B} (obj : option A) (f : A → B) : M B :=
  match obj with
  | Some o => mret (f o)
  | None => throw TypeError
  end.

(** [switch (v) { case l1: b1; break; ... default: d }]: the first case
    whose label is strictly equal to [v]; [undefined] equals no label. *)
Fixpoint switch {A} (v : option string) (cases : list (string * M A))
  (default : M A) : M A :=
  match cases with
  | [] => default
  | (label, body) :: rest =>
    if bool_decide (v = Some label) then body else switch v rest default
  end.

(** [new Promise(executor)]: the executor runs at once, with the new
    promise's [resolve] and [reject] in its scope; if it throws, the promise
    is rejected with what it threw. *)
Definition new_Promise (executor : nat → M unit) : M nat := λ rt,
  let p := nextPromise rt in
  let rt1 := {| this := this rt; nextPromise := S p |} in
  let made := (newPromise p, tabsStorage (this rt)) in
  match executor p rt1 with
  | (Normal _, rt2, es) => (Normal p, rt2, made :: es)
  | (Throw e, rt2, es) =>
    (Normal p, rt2, made :: es ++ [(reject p e, tabsStorage (this rt2))])
  end.

(** An [async] function: its promise is resolved when the body returns and
    rejected with what the body throws. *)
Definition async (body : M unit) : M nat := λ rt,
  let p := nextPromise rt in
  let rt1 := {| this := this rt; nextPromise := S p |} in
  let made := (newPromise p, tabsStorage (this rt)) in
  match body rt1 with
  | (Normal _, rt2, es) =>
    (Normal p, rt2, made :: es ++ [(resolve p, tabsStorage (this rt2))])
  | (Throw e, rt2, es) =>
    (Normal p, rt2, made :: es ++ [(reject p e, tabsStorage (this rt2))])
  end.

(** The state of promise [p] that a trace leaves: settled by the first
    [resolve] or [reject] of [p], pending without one. *)
Inductive PromiseState := Pending | Fulfilled | Rejected (e : Error).

Fixpoint promise_state (p : nat) (trace : list Effect) : PromiseState :=
  match trace with
  | [] => Pending
  | resolve q :: rest =>
    if bool_decide (q = p) then Fulfilled else promise_state p rest
  | reject q e :: rest =>
    if bool_decide (q = p) then Rejected e else promise_state p rest
  | _ :: rest => promise_state p rest
  end.

(** The calls into sub-connectors and the messages to the extension. *)
Definition is_call (e : Effect) : bool :=
  match e with Call _ _ _ => true | _ => false end.
Definition is_message (e : Effect) : bool :=
  match e with sendMessageToExtension _ => true | _ => false end.
Definition calls (trace : list Effect) : list Effect := filter is_call trace.
Definition messages (trace : list Effect) : list Effect := filter is_message trace.

(** ** The methods of [Connector] *)

(** What [requestAnswer] returns: what the sub-connector's method returned,
    or [undefined]. *)
Inductive Returned :=
| returned_undefined
| returned_by (target : Handler) (method : string).

Definition call_returning (target : Handler) (method : string)
  (args : list Value) : M Returned :=
  emit (Call target method args);; mret (returned_by target method).

Definition storage_getTab (tabID : string) : M (option Tab) :=
  gets (λ c, getTab tabID (tabsStorage c)).

Definition storage_addTab (tab : Tab) : M unit :=
  modify (λ c, {| tabsStorage := addTab tab (tabsStorage c);
                  isUIReady := isUIReady c;
                  onMessageReceived := onMessageReceived c |}).

Definition storage_deleteTab (tabID : string) : M unit :=
  modify (λ c, {| tabsStorage := deleteTab tabID (tabsStorage c);
                  isUIReady := isUIReady c;
                  onMessageReceived := onMessageReceived c |}).

Definition storage_setSelectedTab (tabID : string) : M (option string) :=
  prev ← gets (λ c, (setSelectedTab tabID (tabsStorage c)).1);
  modify (λ c, {| tabsStorage := (setSelectedTab tabID (tabsStorage c)).2;
                  isUIReady := isUIReady c;
                  onMessageReceived := onMessageReceived c |});;
  mret prev.

(** [this.tabsStorage.getTab(tabID)?.type]: the category every dispatch
    switches on, [None] when the tab is not in the registry. *)
Definition category (c : Connector) (tabID : string) : option string :=
  type <$> getTab tabID (tabsStorage c).

Section Connector.

(** [isFormButtonCodeTransform] of [./forms/constants] and the platform's
    [JSON.parse] ([None] where it throws [SyntaxError]) are parameters. *)
Variable isFormButtonCodeTransform : string → bool.
Variable JSON_parse : jsstring → option JsValue.

Definition onSourceLinkClick (tabID messageId link : string) : M unit :=
  tab ← storage_getTab tabID;
  switch (type <$> tab)
    [("cwc", call cwChatConnector "onSourceLinkClick"
               [Str tabID; Str messageId; Str link])]
    skip.

Definition onResponseBodyLinkClick (tabID messageId link : string) : M unit :=
  tab ← storage_getTab tabID;
  switch (type <$> tab)
    [("cwc", call cwChatConnector "onResponseBodyLinkClick"
               [Str tabID; Str messageId; Str link]);
     ("featuredev", call featureDevChatConnector "onResponseBodyLinkClick"
               [Str tabID; Str messageId; Str link]);
     ("codetransform", call codeTransformChatConnector "onResponseBodyLinkClick"
               [Str tabID; Str messageId; Str link])]
    skip.

Definition onInfoLinkClick (tabID link : string) : M unit :=
  tab ← storage_getTab tabID;
  switch (type <$> tab) []
    (call cwChatConnector "onInfoLinkClick" [Str tabID; Str link]).

Definition requestAnswer (tabID : string) (payload : ChatPayload) : M Returned :=
  tab ← storage_getTab tabID;
  switch (type <$> tab)
    [("codetransform", call_returning codeTransformChatConnector "requestAnswer"
               [Str tabID; Payload payload])]
    (mret returned_undefined).

(** The executor never mentions its [resolve] and [reject]; [p] names the
    promise they belong to. *)
Definition requestGenerativeAIAnswer (tabID : string) (payload : ChatPayload)
  : M nat :=
  new_Promise (λ p,
    ready ← gets isUIReady;
    if (ready : bool) then
      tab ← storage_getTab tabID;
      switch (type <$> tab)
        [("featuredev", call featureDevChatConnector "requestGenerativeAIAnswer"
                   [Str tabID; Payload payload])]
        (call cwChatConnector "requestGenerativeAIAnswer"
                   [Str tabID; Payload payload])
    else
      emit (setTimeout (again tabID payload) 2000)).

Definition clearChat (tabID : string) : M unit :=
  tab ← storage_getTab tabID;
  switch (type <$> tab)
    [("cwc", call cwChatConnector "clearChat" [Str tabID])]
    skip.

Definition help (tabID : string) : M unit :=
  tab ← storage_getTab tabID;
  switch (type <$> tab)
    [("cwc", call cwChatConnector "help" [Str tabID])]
    skip.

Definition transform (tabID : string) : M unit :=
  tab ← storage_getTab tabID;
  switch (type <$> tab) []
    (call codeTransformChatConnector "transform" [Str tabID]).

(** [message.data] is the serialized text the host posted, or [undefined]. *)
Definition sender_is (messageData : JsValue) (tag : string) : M bool :=
  match get messageData (js "sender") with
  | inl e => throw e
  | inr sender => mret (is_string sender (js tag))
  end.

Definition handleMessageReceive (data : option jsstring) : M nat :=
  async (
    match data with
    | None => skip
    | Some text =>
      match JSON_parse text with
      | None => throw SyntaxError
      | Some messageData =>
        if is_undefined messageData then skip
        else
          c ← sender_is messageData "CWChat";
          if (c : bool) then
            call cwChatConnector "handleMessageReceive" [Obj messageData]
          else
            f ← sender_is messageData "featureDevChat";
            if (f : bool) then
              call featureDevChatConnector "handleMessageReceive" [Obj messageData]
            else
              t ← sender_is messageData "codetransform";
              if (t : bool) then
                call codeTransformChatConnector "handleMessageReceive"
                  [Obj messageData]
              else skip
      end
    end).

Definition onTabAdd (tabID : string) : M unit :=
  storage_addTab {| id := tabID; type := "unknown"; status := "free";
                    isSelected := true; openInteractionType := None |}.

Definition onUpdateTabType (tabID : string) : M unit :=
  tab ← storage_getTab tabID;
  switch (type <$> tab)
    [("cwc", o ← prop tab openInteractionType;
             call cwChatConnector "onTabAdd" [Str tabID; opt_str o])]
    skip.

Definition onKnownTabOpen (tabID : string) : M unit :=
  tab ← storage_getTab tabID;
  switch (type <$> tab)
    [("featuredev", call featureDevChatConnector "onTabOpen" [Str tabID]);
     ("codetransform", call codeTransformChatConnector "onTabOpen" [Str tabID])]
    skip.

Definition onTabChange (tabId : string) : M unit :=
  prevTabID ← storage_setSelectedTab tabId;
  call cwChatConnector "onTabChange" [Str tabId; opt_str prevTabID].

Definition onCodeInsertToCursorPosition (tabID messageId : string)
  (code type_ codeReference eventId codeBlockIndex totalCodeBlocks userIntent
   codeBlockLanguage : Value) : M unit :=
  tab ← storage_getTab tabID;
  switch (type <$> tab)
    [("cwc", call cwChatConnector "onCodeInsertToCursorPosition"
               [Str tabID; Str messageId; code; type_; codeReference; eventId;
                codeBlockIndex; totalCodeBlocks; userIntent; codeBlockLanguage]);
     ("featuredev", call featureDevChatConnector "onCodeInsertToCursorPosition"
               [Str tabID; code; type_; codeReference])]
    skip.

Definition onCopyCodeToClipboard (tabID messageId : string)
  (code type_ codeReference eventId codeBlockIndex totalCodeBlocks userIntent
   codeBlockLanguage : Value) : M unit :=
  tab ← storage_getTab tabID;
  switch (type <$> tab)
    [("cwc", call cwChatConnector "onCopyCodeToClipboard"
               [Str tabID; Str messageId; code; type_; codeReference; eventId;
                codeBlockIndex; totalCodeBlocks; userIntent; codeBlockLanguage]);
     ("featuredev", call featureDevChatConnector "onCopyCodeToClipboard"
               [Str tabID; code; type_; codeReference])]
    skip.

Definition onTabRemove (tabID : string) : M unit :=
  tab ← storage_getTab tabID;
  storage_deleteTab tabID;;
  switch (type <$> tab)
    [("cwc", call cwChatConnector "onTabRemove" [Str tabID]);
     ("featuredev", call featureDevChatConnector "onTabRemove" [Str tabID]);
     ("codetransform", call codeTransformChatConnector "onTabRemove" [Str tabID])]
    skip.

Definition uiReady : M unit :=
  modify (λ c, {| tabsStorage := tabsStorage c; isUIReady := true;
                  onMessageReceived := onMessageReceived c |});;
  emit (sendMessageToExtension [("command", "ui-is-ready")]);;
  given ← gets onMessageReceived;
  (if (given : bool) then emit (addEventListener "message" onMessage) else skip);;
  emit (addEventListener "focus" onFocus);;
  emit (addEventListener "blur" onFocus).

Definition handleApplicationFocus (event_type : string) : M nat :=
  async (emit (sendMessageToExtension
    [("command", "ui-focus"); ("type", event_type); ("tabType", "cwc")])).

(** Its whole body is commented out. *)
Definition triggerSuggestionEngagement (tabId messageId : string)
  (engagement : Value) : M unit :=
  skip.

Definition onAuthFollowUpClicked (tabID : string) (authType : Value) : M unit :=
  tab ← storage_getTab tabID;
  let tabType := type <$> tab in
  let body := call amazonqCommonsConnector "authFollowUpClicked"
                [Str tabID; opt_str tabType; authType] in
  switch tabType
    [("codetransform", body); ("cwc", body); ("featuredev", body)]
    skip.

Definition onFollowUpClicked (tabID messageId : string) (followUp : Value)
  : M unit :=
  tab ← storage_getTab tabID;
  switch (type <$> tab)
    [("unknown", call amazonqCommonsConnector "followUpClicked"
               [Str tabID; followUp]);
     ("featuredev", call featureDevChatConnector "followUpClicked"
               [Str tabID; followUp]);
     ("codetransform", call codeTransformChatConnector "followUpClicked"
               [Str tabID; followUp])]
    (call cwChatConnector "followUpClicked" [Str tabID; Str messageId; followUp]).

Definition onFileActionClick (tabID messageId filePath actionName : string)
  : M unit :=
  tab ← storage_getTab tabID;
  switch (type <$> tab)
    [("featuredev", call featureDevChatConnector "onFileActionClick"
               [Str tabID; Str messageId; Str filePath; Str actionName])]
    skip.

Definition onOpenDiff (tabID filePath : string) (deleted : bool) : M unit :=
  tab ← storage_getTab tabID;
  switch (type <$> tab)
    [("featuredev", call featureDevChatConnector "onOpenDiff"
               [Str tabID; Str filePath; Bool deleted])]
    skip.

Definition onStopChatResponse (tabID : string) : M unit :=
  tab ← storage_getTab tabID;
  switch (type <$> tab)
    [("featuredev", call featureDevChatConnector "onStopChatResponse" [Str tabID]);
     ("cwc", call cwChatConnector "onStopChatResponse" [Str tabID])]
    skip.

Definition sendFeedback (tabId : string) (feedbackPayload : Value) : M unit :=
  tab ← storage_getTab tabId;
  switch (type <$> tab)
    [("featuredev", call featureDevChatConnector "sendFeedback"
               [Str tabId; feedbackPayload]);
     ("cwc", call cwChatConnector "onSendFeedback" [Str tabId; feedbackPayload])]
    skip.

Definition onChatItemVoted (tabId messageId vote : string) : M unit :=
  tab ← storage_getTab tabId;
  switch (type <$> tab)
    [("cwc", call cwChatConnector "onChatItemVoted"
               [Str tabId; Str messageId; Str vote]);
     ("featuredev", call featureDevChatConnector "onChatItemVoted"
               [Str tabId; Str messageId; Str vote])]
    skip.

Definition onFormButtonClick (tabId messageId : string) (action : FormAction.t)
  : M unit :=
  (if isFormButtonCodeTransform (FormAction.id action) then
     call codeTransformChatConnector "onFormButtonClick" [Str tabId; Action action]
   else skip);;
  tab ← storage_getTab tabId;
  switch (type <$> tab)
    [("cwc",
      if bool_decide (FormAction.id action = "open-settings") then
        emit (sendMessageToExtension
          [("command", "open-settings"); ("type", ""); ("tabType", "cwc")])
      else skip)]
    skip.

End Connector.

(** ** The router's operations as data

    [Op.t] names the methods that are keyed by a tab identifier and look the
    tab up: the dispatch operations. [Method.t] adds the rest of the public
    surface: registration, readiness and the two listeners. *)

Module Op.
Inductive t :=
| onSourceLinkClick (tabID messageId link : string)
| onResponseBodyLinkClick (tabID messageId link : string)
| onInfoLinkClick (tabID link : string)
| requestAnswer (tabID : string) (payload : ChatPayload)
| requestGenerativeAIAnswer (tabID : string) (payload : ChatPayload)
| clearChat (tabID : string)
| help (tabID : string)
| transform (tabID : string)
| onUpdateTabType (tabID : string)
| onKnownTabOpen (tabID : string)
| onTabChange (tabId : string)
| onCodeInsertToCursorPosition (tabID messageId : string)
    (code type_ codeReference eventId codeBlockIndex totalCodeBlocks userIntent
     codeBlockLanguage : Value)
| onCopyCodeToClipboard (tabID messageId : string)
    (code type_ codeReference eventId codeBlockIndex totalCodeBlocks userIntent
     codeBlockLanguage : Value)
| onTabRemove (tabID : string)
| triggerSuggestionEngagement (tabId messageId : string) (engagement : Value)
| onAuthFollowUpClicked (tabID : string) (authType : Value)
| onFollowUpClicked (tabID messageId : string) (followUp : Value)
| onFileActionClick (tabID messageId filePath actionName : string)
| onOpenDiff (tabID filePath : string) (deleted : bool)
| onStopChatResponse (tabID : string)
| sendFeedback (tabId : string) (feedbackPayload : Value)
| onChatItemVoted (tabId messageId vote : string)
| onFormButtonClick (tabId messageId : string) (action : FormAction.t).

(** The tab identifier an operation is keyed by. *)
Definition tabID (op : t) : string :=
  match op with
  | onSourceLinkClick i _ _ | onResponseBodyLinkClick i _ _
  | onInfoLinkClick i _ | requestAnswer i _ | requestGenerativeAIAnswer i _
  | clearChat i | help i | transform i | onUpdateTabType i | onKnownTabOpen i
  | onTabChange i | onCodeInsertToCursorPosition i _ _ _ _ _ _ _ _ _
  | onCopyCodeToClipboard i _ _ _ _ _ _ _ _ _ | onTabRemove i
  | triggerSuggestionEngagement i _ _ | onAuthFollowUpClicked i _
  | onFollowUpClicked i _ _ | onFileActionClick i _ _ _ | onOpenDiff i _ _
  | onStopChatResponse i | sendFeedback i _ | onChatItemVoted i _ _
  | onFormButtonClick i _ _ => i
  end.
End Op.

Module Method.
Inductive t :=
| dispatch (op : Op.t)
| onTabAdd (tabID : string)
| uiReady
| handleMessageReceive (data : option jsstring)
| handleApplicationFocus (event_type : string).
End Method.

Section Perform.

Variable isFormButtonCodeTransform : string → bool.
Variable JSON_parse : jsstring → option JsValue.

Definition discard {A} (m : M A) : M unit := m ;; skip.

Definition perform (op : Op.t) : M unit :=
  match op with
  | Op.onSourceLinkClick i m l => onSourceLinkClick i m l
  | Op.onResponseBodyLinkClick i m l => onResponseBodyLinkClick i m l
  | Op.onInfoLinkClick i l => onInfoLinkClick i l
  | Op.requestAnswer i p => discard (requestAnswer i p)
  | Op.requestGenerativeAIAnswer i p => discard (requestGenerativeAIAnswer i p)
  | Op.clearChat i => clearChat i
  | Op.help i => help i
  | Op.transform i => transform i
  | Op.onUpdateTabType i => onUpdateTabType i
  | Op.onKnownTabOpen i => onKnownTabOpen i
  | Op.onTabChange i => onTabChange i
  | Op.onCodeInsertToCursorPosition i m a b c d e f g h =>
    onCodeInsertToCursorPosition i m a b c d e f g h
  | Op.onCopyCodeToClipboard i m a b c d e f g h =>
    onCopyCodeToClipboard i m a b c d e f g h
  | Op.onTabRemove i => onTabRemove i
  | Op.triggerSuggestionEngagement i m e => triggerSuggestionEngagement i m e
  | Op.onAuthFollowUpClicked i a => onAuthFollowUpClicked i a
  | Op.onFollowUpClicked i m f => onFollowUpClicked i m f
  | Op.onFileActionClick i m f a => onFileActionClick i m f a
  | Op.onOpenDiff i f d => onOpenDiff i f d
  | Op.onStopChatResponse i => onStopChatResponse i
  | Op.sendFeedback i f => sendFeedback i f
  | Op.onChatItemVoted i m v => onChatItemVoted i m v
  | Op.onFormButtonClick i m a => onFormButtonClick isFormButtonCodeTransform i m a
  end.

Definition invoke (m : Method.t) : M unit :=
  match m with
  | Method.dispatch op => perform op
  | Method.onTabAdd i => onTabAdd i
  | Method.uiReady => uiReady
  | Method.handleMessageReceive data =>
    discard (handleMessageReceive JSON_parse data)
  | Method.handleApplicationFocus ty => discard (handleApplicationFocus ty)
  end.

End Perform.

(** ** The event loop

    Time is counted in milliseconds. A timer set at [now] with delay [ms] is
    due at [now + ms]; the loop runs due timers earliest first, in the order
    they were set among equals. The log stamps every effect with the time it
    happened. *)

Record World := {
  runtime : Runtime;
  now : nat;
  timers : list (nat * Callback);
  log : list (nat * Effect);
}.

Fixpoint add_timer (t : nat * Callback) (ts : list (nat * Callback))
  : list (nat * Callback) :=
  match ts with
  | [] => [t]
  | u :: rest => if t.1 <? u.1 then t :: ts else u :: add_timer t rest
  end.

Fixpoint schedule (now : nat) (es : list Effect) (ts : list (nat * Callback))
  : list (nat * Callback) :=
  match es with
  | [] => ts
  | setTimeout cb ms :: rest => schedule now rest (add_timer (now + ms, cb) ts)
  | _ :: rest => schedule now rest ts
  end.

(** One turn of the loop running [m]. *)
Definition exec {A} (m : M A) (w : World) : World :=
  let '(_, rt, es) := run m (runtime w) in
  {| runtime := rt; now := now w;
     timers := schedule (now w) es (timers w);
     log := log w ++ ((λ e, (now w, e)) <$> es) |}.

(** Time passes to [t] without any turn running. *)
Definition elapse (t : nat) (w : World) : World :=
  {| runtime := runtime w; now := Nat.max (now w) t;
     timers := timers w; log := log w |}.

Definition run_callback (cb : Callback) : M unit :=
  match cb with
  | again tabID payload => discard (requestGenerativeAIAnswer tabID payload)
  end.

(** The next timer fires: time passes to when it is due and its callback
    runs. Without a timer nothing happens. *)
Definition fire (w : World) : World :=
  match timers w with
  | [] => w
  | (due, cb) :: rest =>
    exec (run_callback cb)
      {| runtime := runtime w; now := Nat.max (now w) due;
         timers := rest; log := log w |}
  end.

Definition start (c : Connector) (t0 : nat) : World :=
  {| runtime := {| this := c; nextPromise := 0 |}; now := t0;
     timers := []; log := [] |}.

(** The trace without the time stamps, and the stamped calls into the
    sub-connectors. *)
Definition trace (w : World) : list Effect := (log w).*2.
Definition stamped_calls (w : World) : list (nat * Effect) :=
  filter (λ te, is_call te.2 = true) (log w).

(** ** Instances for the examples *)

(** Apostrophes stand for quotation marks in the JSON texts below. *)
Definition json (s : string) : jsstring :=
  (λ c, if (c =? 39)%N then 34%N else c) <$> js s.

(** A stand-in for [isFormButtonCodeTransform], whose definition is not at
    hand; the theorems hold for every such predicate. *)
Definition example_isFormButton (id : string) : bool :=
  bool_decide (id = "codetransform-input-confirm").

Definition new_connector : Connector := constructor ∅ true.

Definition booted (c : Connector) : Runtime :=
  {| this := c; nextPromise := 0 |}.

Definition with_tabs (tabs : gmap string Tab) (ready : bool) : Connector :=
  {| tabsStorage := tabs; isUIReady := ready; onMessageReceived := true |}.

Definition tab_of (i ty : string) (selected : bool) : Tab :=
  {| TabsStorage.id := i; type := ty; status := "free"; isSelected := selected;
     openInteractionType := None |}.

Definition hello : ChatPayload :=
  {| chatMessage := "hello"; chatCommand := None |}.

(** Two requests made before the UI is ready, for a chat tab and for a
    feature-dev tab. *)
Definition two_waiting : World :=
  exec (requestGenerativeAIAnswer "t2" hello)
    (exec (requestGenerativeAIAnswer "t1" hello)
       (start (constructor {["t1" := tab_of "t1" "cwc" true;
                             "t2" := tab_of "t2" "featuredev" false]} true) 0)).

(** ** Schedules

    What can happen to a running router, one turn of the event loop at a
    time: a timer fires, the UI or the host calls a method, or time passes. *)

Inductive Turn :=
| Fire
| Invoke (m : Method.t)
| Elapse (t : nat).

Section Schedules.

Variable isFormButtonCodeTransform : string → bool.
Variable JSON_parse : jsstring → option JsValue.

Definition turn (w : World) (t : Turn) : World :=
  match t with
  | Fire => fire w
  | Invoke m => exec (invoke isFormButtonCodeTransform JSON_parse m) w
  | Elapse t => elapse t w
  end.

Definition turns (ts : list Turn) (w : World) : World := foldl turn w ts.

End Schedules.

(** The promise an effect settles, if it settles one. *)
Definition settles (e : Effect) : option nat :=
  match e with
  | resolve q | reject q _ => Some q
  | _ => None
  end.

(** A computation settles only promises it creates, and never lowers the
    counter that names them. *)
Definition allocates {A} (m : M A) : Prop :=
  ∀ rt, nextPromise rt ≤ nextPromise (final (run m rt)) ∧
        Forall (λ q, nextPromise rt ≤ q < nextPromise (final (run m rt)))
               (omap settles (effects (run m rt))).

(** Every promise the log settles is one that has been created. *)
Definition settled_below (w : World) : Prop :=
  Forall (λ q, q < nextPromise (runtime w)) (omap settles (trace w)).

(** Promise [p] has been created and the log does not settle it. *)
Definition unsettled (p : nat) (w : World) : Prop :=
  p < nextPromise (runtime w) ∧ p ∉ omap settles (trace w).

(** ** A sentence of the specification, as it stands *)

(** On an identifier that is not in the registry every dispatch operation
    returns normally, calls no handler and sends no message. *)
Definition every_dispatch_drops_unknown_tabs : Prop :=
  ∀ (isFormButtonCodeTransform : string → bool) (rt : Runtime) (op : Op.t),
    getTab (Op.tabID op) (tabsStorage (this rt)) = None →
    let r := run (perform isFormButtonCodeTransform op) rt in
    completion r = Normal tt ∧ calls (effects r) = [] ∧
    messages (effects r) = [].

(** ** Observations on traces and schedules *)

(** The sub-connectors a trace calls into, in order. *)
Definition targets (es : list Effect) : list Handler :=
  omap (λ e, match e with Call h _ _ => Some h | _ => None end) es.

(** A call without its method name: whom it reaches and with what. *)
Definition call_shape (e : Effect) : option (Handler * list Value) :=
  match e with
  | Call h _ args => Some (h, args)
  | _ => None
  end.

(** The three methods that write to the registry. *)
Definition writes_registry (t : Turn) : bool :=
  match t with
  | Invoke (Method.onTabAdd _)
  | Invoke (Method.dispatch (Op.onTabChange _))
  | Invoke (Method.dispatch (Op.onTabRemove _)) => true
  | _ => false
  end.

Definition is_uiReady (t : Turn) : bool :=
  match t with
  | Invoke Method.uiReady => true
  | _ => false
  end.

(** An effect that, if it is a call, has the given tab identifier for its
    first argument. *)
Definition keyed_by (tabID : string) (e : Effect) : Prop :=
  match e with
  | Call _ _ (Str i :: _) => i = tabID
  | Call _ _ _ => False
  | _ => True
  end.

(** An effect that, if it is a message to the extension, starts with a
    [command] field naming one of the router's three commands. *)
Definition has_command (e : Effect) : Prop :=
  match e with
  | sendMessageToExtension ((k, c) :: _) =>
    k = "command" ∧ c ∈ ["ui-is-ready"; "ui-focus"; "open-settings"]
  | sendMessageToExtension [] => False
  | _ => True
  end.

(** The call a pending retry makes once the UI is ready. *)
Definition delivery (c : Connector) (cb : Callback) : Effect :=
  match cb with
  | again tabID payload =>
    Call (if bool_decide (category c tabID = Some "featuredev")
          then featureDevChatConnector else cwChatConnector)
      "requestGenerativeAIAnswer" [Str tabID; Payload payload]
  end.

(** * Properties *)

Ltac unfold_M :=
  unfold run, completion, final, effects, discard, call, call_returning, emit,
    skip, gets, modify, throw, prop, new_Promise, async, storage_getTab,
    storage_addTab, storage_deleteTab, storage_setSelectedTab, category,
    mbind, M_bind, mret, M_ret in *;
  simpl in *.

Ltac unfold_methods :=
  unfold invoke, perform, onSourceLinkClick, onResponseBodyLinkClick,
    onInfoLinkClick, requestAnswer, requestGenerativeAIAnswer, clearChat, help,
    transform, handleMessageReceive, sender_is, onTabAdd, onUpdateTabType,
    onKnownTabOpen, onTabChange, onCodeInsertToCursorPosition,
    onCopyCodeToClipboard, onTabRemove, uiReady, handleApplicationFocus,
    triggerSuggestionEngagement, onAuthFollowUpClicked, onFollowUpClicked,
    onFileActionClick, onOpenDiff, onStopChatResponse, sendFeedback,
    onChatItemVoted, onFormButtonClick in *.

Ltac by_category :=
  repeat (case_bool_decide; simplify_eq/=; try congruence; try done).

Ltac same_time :=
  match goal with
  | |- [(?a, _)] = [(?b, _)] => replace a with b by lia; reflexivity
  end.

Ltac split_cases :=
  repeat match goal with
  | |- context [get ?v ?n] => destruct (get v n); simpl
  | |- context [is_string ?v ?n] => destruct (is_string v n); simpl
  | |- context [is_undefined ?v] => destruct (is_undefined v); simpl
  | |- context [isUIReady ?c] => destruct (isUIReady c); simpl
  | |- context [onMessageReceived ?c] => destruct (onMessageReceived c); simpl
  | |- context [getTab ?i ?tabs] => destruct (getTab i tabs); simpl
  | |- context [bool_decide ?P] => destruct (bool_decide P); simpl
  | |- context [if ?b then _ else _] => destruct b; simpl
  | |- context [match ?x with Some _ => _ | None => _ end] => destruct x; simpl
  end.

(** *** The registry's selection *)

Lemma selectedTabs_elem (tabs : gmap string Tab) (k : string) :
  k ∈ selectedTabs tabs ↔ ∃ t, tabs !! k = Some t ∧ isSelected t = true.
Proof.
  unfold selectedTabs. rewrite list_elem_of_fmap. split.
  - intros ([k' t] & -> & Hin). apply elem_of_map_to_list in Hin.
    apply map_lookup_filter_Some in Hin as [Hk Hsel]. by exists t.
  - intros (t & Hk & Hsel). exists (k, t). split; [done|].
    apply elem_of_map_to_list. by apply map_lookup_filter_Some.
Qed.

Lemma selectedTab_Some (tabs : gmap string Tab) (k : string) :
  selectedTab tabs = Some k → ∃ t, tabs !! k = Some t ∧ isSelected t = true.
Proof.
  intros Hhead. apply selectedTabs_elem. by apply head_Some_elem_of.
Qed.

Lemma selectedTab_None (tabs : gmap string Tab) (k : string) (t : Tab) :
  selectedTab tabs = None → tabs !! k = Some t → isSelected t = false.
Proof.
  unfold selectedTab. intros Hhead Hk.
  destruct (isSelected t) eqn:Hsel; [|done].
  assert (Hin : k ∈ selectedTabs tabs) by (apply selectedTabs_elem; eauto).
  destruct (selectedTabs tabs); [by apply elem_of_nil in Hin | done].
Qed.

Lemma selectedTab_unique (tabs : gmap string Tab) (k : string) (t : Tab) :
  at_most_one_selected tabs → tabs !! k = Some t → isSelected t = true →
  selectedTab tabs = Some k.
Proof.
  intros Hinv Hk Hsel. destruct (selectedTab tabs) as [k'|] eqn:Hhead.
  - apply selectedTab_Some in Hhead as (t' & Hk' & Hsel').
    f_equal. by eapply Hinv.
  - pose proof (selectedTab_None _ _ _ Hhead Hk). congruence.
Qed.

(** After [setSelectedTab] on a registered identifier, in a registry with at
    most one tab marked, the identifier is marked and is the only one. *)
Lemma setSelectedTab_marks (tabs : gmap string Tab) (tabID : string) (t : Tab) :
  tabs !! tabID = Some t →
  (setSelectedTab tabID tabs).1 = selectedTab tabs ∧
  (setSelectedTab tabID tabs).2 !! tabID = Some (select true t) ∧
  (at_most_one_selected tabs →
   ∀ j tj, (setSelectedTab tabID tabs).2 !! j = Some tj →
           isSelected tj = true → j = tabID).
Proof.
  intros Hk. unfold setSelectedTab. rewrite Hk.
  destruct (selectedTab tabs) as [p|] eqn:Hprev; simpl.
  - split_and!; [done | |].
    + rewrite lookup_alter_eq. destruct (decide (p = tabID)) as [->|Hne].
      * rewrite lookup_alter_eq, Hk. done.
      * rewrite lookup_alter_ne, Hk by done. done.
    + intros Hinv j tj Hj Hsel. destruct (decide (j = tabID)) as [|Hj']; [done|].
      rewrite lookup_alter_ne in Hj by done.
      apply selectedTab_Some in Hprev as (tp & Hp & Hpsel).
      destruct (decide (p = j)) as [->|Hpj].
      * rewrite lookup_alter_eq, Hp in Hj. simplify_eq/=.
      * rewrite lookup_alter_ne in Hj by done.
        exfalso. apply Hpj. by eapply Hinv.
  - split_and!; [done | by rewrite lookup_alter_eq, Hk |].
    intros _ j tj Hj Hsel. destruct (decide (j = tabID)) as [|Hj']; [done|].
    rewrite lookup_alter_ne in Hj by done.
    pose proof (selectedTab_None _ _ _ Hprev Hj). congruence.
Qed.

Lemma setSelectedTab_preserves (tabs : gmap string Tab) (tabID : string) :
  at_most_one_selected tabs →
  at_most_one_selected (setSelectedTab tabID tabs).2.
Proof.
  intros Hinv. destruct (tabs !! tabID) as [t|] eqn:Hk.
  - destruct (setSelectedTab_marks tabs tabID t Hk) as (_ & _ & Honly).
    intros i j ti tj Hi Hj Hseli Hselj.
    rewrite (Honly Hinv i ti Hi Hseli), (Honly Hinv j tj Hj Hselj). done.
  - unfold setSelectedTab. by rewrite Hk.
Qed.

Lemma deleteTab_preserves (tabs : gmap string Tab) (tabID : string) :
  at_most_one_selected tabs → at_most_one_selected (deleteTab tabID tabs).
Proof.
  intros Hinv i j ti tj Hi Hj. unfold deleteTab in *.
  apply lookup_delete_Some in Hi as [_ Hi].
  apply lookup_delete_Some in Hj as [_ Hj]. by eapply Hinv.
Qed.

(** A tab added marked selected is the only marked one afterwards. *)
Lemma addTab_selected (tabs : gmap string Tab) (tab : Tab) :
  isSelected tab = true →
  ∀ j tj, addTab tab tabs !! j = Some tj → isSelected tj = true →
          j = TabsStorage.id tab.
Proof.
  intros Hsel j tj Hj Hselj. unfold addTab in Hj. rewrite Hsel in Hj.
  destruct (decide (TabsStorage.id tab = j)) as [<-|Hne]; [done|].
  rewrite lookup_insert_ne, lookup_fmap in Hj by done.
  destruct (tabs !! j) as [t|]; simplify_eq/=.
Qed.

Lemma addTab_preserves (tabs : gmap string Tab) (tab : Tab) :
  at_most_one_selected tabs → at_most_one_selected (addTab tab tabs).
Proof.
  intros Hinv i j ti tj Hi Hj Hseli Hselj.
  destruct (isSelected tab) eqn:Hsel.
  - rewrite (addTab_selected tabs tab Hsel i ti Hi Hseli).
    by rewrite (addTab_selected tabs tab Hsel j tj Hj Hselj).
  - unfold addTab in *. rewrite Hsel in Hi, Hj.
    apply lookup_insert_Some in Hi as [[<- <-]|[_ Hi]]; [congruence|].
    apply lookup_insert_Some in Hj as [[<- <-]|[_ Hj]]; [congruence|].
    by eapply Hinv.
Qed.

Section Routing.

Context (isFormButtonCodeTransform : string → bool).
Context (JSON_parse : jsstring → option JsValue).

(** C3. [onFollowUpClicked] routes by the tab's category: [unknown] goes to
    the commons handler, [featuredev] to the feature-dev handler,
    [codetransform] to the code-transform handler, and every other category,
    a missing tab included, to the chat handler. It is one call, it returns
    normally and it leaves the router as it was. *)
Theorem onFollowUpClicked_routes (rt : Runtime) (tabID messageId : string)
  (followUp : Value) :
  let r := run (onFollowUpClicked tabID messageId followUp) rt in
  completion r = Normal tt ∧ final r = rt ∧
  (category (this rt) tabID = Some "unknown" →
     effects r = [Call amazonqCommonsConnector "followUpClicked"
                    [Str tabID; followUp]]) ∧
  (category (this rt) tabID = Some "featuredev" →
     effects r = [Call featureDevChatConnector "followUpClicked"
                    [Str tabID; followUp]]) ∧
  (category (this rt) tabID = Some "codetransform" →
     effects r = [Call codeTransformChatConnector "followUpClicked"
                    [Str tabID; followUp]]) ∧
  (category (this rt) tabID ≠ Some "unknown" →
   category (this rt) tabID ≠ Some "featuredev" →
   category (this rt) tabID ≠ Some "codetransform" →
     effects r = [Call cwChatConnector "followUpClicked"
                    [Str tabID; Str messageId; followUp]]).
Proof.
  unfold onFollowUpClicked. unfold_M.
  repeat split; try intros; by_category.
Qed.

(** C6. [onTabAdd] puts into the registry, under the given identifier, a
    tab of category [unknown] and status [free] that is marked selected. It
    returns normally and calls nobody; every other entry stays, unmarked. *)
Theorem onTabAdd_inserts_unknown_free_selected (rt : Runtime) (tabID : string) :
  let r := run (onTabAdd tabID) rt in
  completion r = Normal tt ∧ effects r = [] ∧
  (∃ tab, getTab tabID (tabsStorage (this (final r))) = Some tab ∧
          TabsStorage.id tab = tabID ∧ type tab = "unknown" ∧
          status tab = "free" ∧ isSelected tab = true) ∧
  (∀ other, other ≠ tabID →
     getTab other (tabsStorage (this (final r))) =
     select false <$> getTab other (tabsStorage (this rt))).
Proof.
  unfold onTabAdd. unfold_M. unfold getTab, addTab. simpl.
  repeat split.
  - eexists. split; [apply lookup_insert_eq | done].
  - intros other Hne. by rewrite lookup_insert_ne, lookup_fmap.
Qed.

(** C5. [onTabRemove] looks the tab up, deletes it, and then tells the
    handler of the category the tab had before the deletion: chat,
    feature-dev or code-transform, nobody for any other category. The
    order shows on both sides of the deletion: the handler is chosen by the
    category read before it, and the handler is called on the registry
    after it, from which the tab is gone. For an identifier that is not in
    the registry it changes nothing, calls nobody and returns normally. *)
Theorem onTabRemove_deletes_then_notifies (rt : Runtime) (tabID : string) :
  let r := run (onTabRemove tabID) rt in
  completion r = Normal tt ∧
  getTab tabID (tabsStorage (this (final r))) = None ∧
  (∀ other, other ≠ tabID →
     getTab other (tabsStorage (this (final r))) =
     getTab other (tabsStorage (this rt))) ∧
  (category (this rt) tabID = Some "cwc" →
     effects r = [Call cwChatConnector "onTabRemove" [Str tabID]]) ∧
  (category (this rt) tabID = Some "featuredev" →
     effects r = [Call featureDevChatConnector "onTabRemove" [Str tabID]]) ∧
  (category (this rt) tabID = Some "codetransform" →
     effects r = [Call codeTransformChatConnector "onTabRemove" [Str tabID]]) ∧
  (category (this rt) tabID ≠ Some "cwc" →
   category (this rt) tabID ≠ Some "featuredev" →
   category (this rt) tabID ≠ Some "codetransform" →
     effects r = []) ∧
  Forall (λ ev, ev.2 = deleteTab tabID (tabsStorage (this rt)) ∧
                 getTab tabID ev.2 = None)
         (seen (onTabRemove tabID) rt) ∧
  (getTab tabID (tabsStorage (this rt)) = None →
     effects r = [] ∧ final r = rt).
Proof.
  destruct rt as [[tabs ready given] np].
  unfold seen, onTabRemove. unfold_M. unfold getTab, deleteTab.
  split_and!.
  - by_category.
  - by_category; apply lookup_delete_eq.
  - intros other Hne. by_category; by rewrite lookup_delete_ne.
  - intros. by_category.
  - intros. by_category.
  - intros. by_category.
  - intros. by_category.
  - repeat case_bool_decide; repeat constructor; simpl;
      apply lookup_delete_eq.
  - intros Hnone. rewrite Hnone. simpl. by rewrite delete_id.
Qed.

(** C10. [onFormButtonClick] does two independent things, in this order:
    it hands the click to the code-transform handler whenever the action's
    id is a code-transform form button, whatever the tab's category and
    whether or not the tab exists; and it sends [open-settings] to the
    extension when the tab's category is [cwc] and the action's id is
    [open-settings]. One call does both when both conditions hold. *)
Theorem onFormButtonClick_routes_by_action (rt : Runtime)
  (tabId messageId : string) (action : FormAction.t) :
  run (onFormButtonClick isFormButtonCodeTransform tabId messageId action) rt =
  (Normal tt, rt,
   (if isFormButtonCodeTransform (FormAction.id action)
    then [Call codeTransformChatConnector "onFormButtonClick"
            [Str tabId; Action action]]
    else []) ++
   (if bool_decide (category (this rt) tabId = Some "cwc" ∧
                    FormAction.id action = "open-settings")
    then [sendMessageToExtension
            [("command", "open-settings"); ("type", ""); ("tabType", "cwc")]]
    else [])).
Proof.
  unfold onFormButtonClick. unfold_M.
  destruct (isFormButtonCodeTransform (FormAction.id action)); simpl;
    destruct (type <$> getTab tabId (tabsStorage (this rt))) as [ty|];
    repeat case_bool_decide; try reflexivity;
    exfalso; intuition congruence.
Qed.

(** A text that [JSON.parse] refuses: the promise [handleMessageReceive]
    returns is rejected with the [SyntaxError], and nothing else happens. *)
Lemma handleMessageReceive_malformed (rt : Runtime) (text : jsstring) :
  JSON_parse text = None →
  run (handleMessageReceive JSON_parse (Some text)) rt =
  (Normal (nextPromise rt),
   {| this := this rt; nextPromise := S (nextPromise rt) |},
   [newPromise (nextPromise rt); reject (nextPromise rt) SyntaxError]).
Proof.
  intros Hparse. unfold handleMessageReceive. unfold_M. by rewrite Hparse.
Qed.

(** C7. [handleMessageReceive] hands a parsed message to the handler its
    [sender] names, and to no other: [CWChat] to the chat handler,
    [featureDevChat] to the feature-dev handler, [codetransform] to the
    code-transform handler. Any other sender, a missing one included, reaches
    no handler. *)
Theorem handleMessageReceive_demultiplexes (rt : Runtime) (text : jsstring)
  (messageData : JsValue) :
  JSON_parse text = Some messageData →
  let r := run (handleMessageReceive JSON_parse (Some text)) rt in
  let sender := get messageData (js "sender") in
  (sender = inr (JsString (js "CWChat")) →
     calls (effects r) =
     [Call cwChatConnector "handleMessageReceive" [Obj messageData]]) ∧
  (sender = inr (JsString (js "featureDevChat")) →
     calls (effects r) =
     [Call featureDevChatConnector "handleMessageReceive" [Obj messageData]]) ∧
  (sender = inr (JsString (js "codetransform")) →
     calls (effects r) =
     [Call codeTransformChatConnector "handleMessageReceive" [Obj messageData]]) ∧
  (sender ≠ inr (JsString (js "CWChat")) →
   sender ≠ inr (JsString (js "featureDevChat")) →
   sender ≠ inr (JsString (js "codetransform")) →
     calls (effects r) = []) ∧
  length (calls (effects r)) ≤ 1.
Proof.
  intros Hparse. unfold handleMessageReceive, sender_is.
  unfold run, effects, async. rewrite Hparse. cbv zeta.
  destruct (get messageData (js "sender")) as [e|sender] eqn:Hsender.
  - (* the access throws, or the message is [undefined] *)
    destruct (is_undefined messageData); unfold_M; split_and!; try done; lia.
  - assert (Hdef : is_undefined messageData = false).
    { destruct messageData; simpl in Hsender; by simplify_eq. }
    rewrite Hdef. unfold_M.
    destruct sender; simpl; try (split_and!; try done; lia).
    repeat case_bool_decide; simplify_eq; simpl;
      split_and!; try done; try lia; intros; simplify_eq.
Qed.

(** What a dispatch operation does to the registry: [onTabChange] moves the
    selection, [onTabRemove] deletes, the others leave it alone. *)
Lemma perform_storage (rt : Runtime) (op : Op.t) :
  let tabs := tabsStorage (this rt) in
  let tabs' :=
    tabsStorage (this (final (run (perform isFormButtonCodeTransform op) rt))) in
  match op with
  | Op.onTabChange i => tabs' = (setSelectedTab i tabs).2
  | Op.onTabRemove i => tabs' = deleteTab i tabs
  | _ => tabs' = tabs
  end.
Proof.
  destruct op; unfold_methods; unfold_M;
    try destruct (isUIReady (this rt));
    try destruct (isFormButtonCodeTransform (FormAction.id action));
    try destruct (getTab tabID (tabsStorage (this rt))) as [tab|];
    simpl; repeat case_bool_decide; reflexivity.
Qed.

(** The methods outside the dispatch leave the registry alone, but for
    [onTabAdd]. *)
Lemma invoke_storage (rt : Runtime) (m : Method.t) :
  let tabs := tabsStorage (this rt) in
  let tabs' :=
    tabsStorage (this (final (run
      (invoke isFormButtonCodeTransform JSON_parse m) rt))) in
  match m with
  | Method.dispatch (Op.onTabChange i) => tabs' = (setSelectedTab i tabs).2
  | Method.dispatch (Op.onTabRemove i) => tabs' = deleteTab i tabs
  | Method.onTabAdd i =>
    tabs' = addTab {| TabsStorage.id := i; type := "unknown"; status := "free";
                      isSelected := true; openInteractionType := None |} tabs
  | _ => tabs' = tabs
  end.
Proof.
  destruct m as [op|i| |data|ty].
  - pose proof (perform_storage rt op) as H. by destruct op.
  - reflexivity.
  - unfold_methods; unfold_M. by destruct (onMessageReceived (this rt)).
  - unfold_methods; unfold_M. destruct data as [text|]; [|done].
    destruct (JSON_parse text) as [v|]; [|done].
    destruct (is_undefined v); [done|]. simpl.
    destruct (get v (js "sender")) as [e|sender]; [done|]. simpl.
    repeat (match goal with |- context [is_string ?a ?b] =>
              destruct (is_string a b); simpl end); done.
  - reflexivity.
Qed.

(** C2, as the code has it. On an identifier that is not in the registry
    every dispatch operation returns normally and leaves the router's fields
    as they were. The operations whose switch lists its categories call no
    handler and send no message. The others still act: [onInfoLinkClick],
    [onFollowUpClicked] and, once the UI is ready, [requestGenerativeAIAnswer]
    fall to their default case, the chat handler; [transform] to its default
    case, the code-transform handler; [onTabChange] always tells the chat
    handler; [onFormButtonClick] hands a code-transform form button to the
    code-transform handler; and before the UI is ready
    [requestGenerativeAIAnswer] sets its timer. *)
Theorem unknown_tab_dispatch (rt : Runtime) (op : Op.t) :
  getTab (Op.tabID op) (tabsStorage (this rt)) = None →
  let r := run (perform isFormButtonCodeTransform op) rt in
  completion r = Normal tt ∧
  this (final r) = this rt ∧
  match op with
  | Op.onInfoLinkClick tabID link =>
    effects r = [Call cwChatConnector "onInfoLinkClick" [Str tabID; Str link]]
  | Op.transform tabID =>
    effects r = [Call codeTransformChatConnector "transform" [Str tabID]]
  | Op.onFollowUpClicked tabID messageId followUp =>
    effects r = [Call cwChatConnector "followUpClicked"
                   [Str tabID; Str messageId; followUp]]
  | Op.requestGenerativeAIAnswer tabID payload =>
    effects r =
    [newPromise (nextPromise rt);
     if isUIReady (this rt)
     then Call cwChatConnector "requestGenerativeAIAnswer"
            [Str tabID; Payload payload]
     else setTimeout (again tabID payload) 2000]
  | Op.onTabChange tabId =>
    ∃ prevTabID,
      effects r = [Call cwChatConnector "onTabChange" [Str tabId; prevTabID]]
  | Op.onFormButtonClick tabId messageId action =>
    effects r =
    if isFormButtonCodeTransform (FormAction.id action)
    then [Call codeTransformChatConnector "onFormButtonClick"
            [Str tabId; Action action]]
    else []
  | _ => effects r = []
  end.
Proof.
  destruct rt as [[tabs ready given] np].
  destruct op; simpl; intros Hnone; unfold_methods; unfold_M;
    unfold getTab, deleteTab, setSelectedTab in *; rewrite ?Hnone; simpl;
    try (split_and!; reflexivity).
  - destruct ready; simpl; by rewrite ?Hnone.
  - split_and!; [done | done | by eexists].
  - by rewrite delete_id.
  - destruct (isFormButtonCodeTransform (FormAction.id action)); simpl;
      by rewrite ?Hnone.
Qed.

End Routing.

(** *** Timers and promises *)

Lemma stamped_calls_app (l1 l2 : list (nat * Effect)) :
  filter (λ te, is_call te.2 = true) (l1 ++ l2) =
  filter (λ te, is_call te.2 = true) l1 ++ filter (λ te, is_call te.2 = true) l2.
Proof. apply filter_app. Qed.

(** The retry before the UI is ready: no call, a new timer 2000 ms on. *)
Lemma fire_not_ready (w : World) (due : nat) (tabID : string)
  (payload : ChatPayload) :
  isUIReady (this (runtime w)) = false →
  timers w = [(due, again tabID payload)] →
  this (runtime (fire w)) = this (runtime w) ∧
  now (fire w) = Nat.max (now w) due ∧
  timers (fire w) = [(Nat.max (now w) due + 2000, again tabID payload)] ∧
  stamped_calls (fire w) = stamped_calls w.
Proof.
  intros Hready Htimers. unfold fire, stamped_calls. rewrite Htimers.
  unfold exec, run_callback, requestGenerativeAIAnswer. unfold_M.
  rewrite Hready. cbn [fst snd runtime now timers log this schedule add_timer
    fmap list_fmap app].
  split_and!; try reflexivity.
  rewrite stamped_calls_app. cbn. by rewrite app_nil_r.
Qed.

(** The retry once the UI is ready: the call, and no timer any more. *)
Lemma fire_ready (w : World) (due : nat) (tabID : string)
  (payload : ChatPayload) :
  isUIReady (this (runtime w)) = true →
  timers w = [(due, again tabID payload)] →
  timers (fire w) = [] ∧
  stamped_calls (fire w) =
  stamped_calls w ++
  [(Nat.max (now w) due,
    Call (if bool_decide (category (this (runtime w)) tabID = Some "featuredev")
          then featureDevChatConnector else cwChatConnector)
      "requestGenerativeAIAnswer" [Str tabID; Payload payload])].
Proof.
  intros Hready Htimers. unfold fire, stamped_calls. rewrite Htimers.
  unfold exec, run_callback, requestGenerativeAIAnswer. unfold_M.
  rewrite Hready. cbn [fst snd runtime now timers log this switch].
  case_bool_decide;
    cbn [fst snd runtime now timers log this schedule add_timer fmap
         list_fmap app];
    (split; [reflexivity|]); rewrite stamped_calls_app; reflexivity.
Qed.

Lemma exec_uiReady (w : World) :
  tabsStorage (this (runtime (exec uiReady w))) = tabsStorage (this (runtime w)) ∧
  isUIReady (this (runtime (exec uiReady w))) = true ∧
  timers (exec uiReady w) = timers w ∧
  now (exec uiReady w) = now w ∧
  stamped_calls (exec uiReady w) = stamped_calls w.
Proof.
  unfold exec, stamped_calls, uiReady. unfold_M.
  destruct (onMessageReceived (this (runtime w))); cbn;
    rewrite stamped_calls_app; cbn; by rewrite app_nil_r.
Qed.

Lemma fire_keeps_fields (w : World) : this (runtime (fire w)) = this (runtime w).
Proof.
  unfold fire. destruct (timers w) as [|[due [tabID payload]] rest]; [done|].
  unfold exec, run_callback, requestGenerativeAIAnswer. unfold_M.
  destruct (isUIReady (this (runtime w))); simpl; [case_bool_decide|]; done.
Qed.

Section Readiness.

Context (c : Connector) (t0 : nat) (tabID : string) (payload : ChatPayload).

(** Called before the UI is ready and retried [n] times since: the router
    is as it was, no handler has been called, and one timer is pending. *)
Lemma waiting (n : nat) :
  isUIReady c = false →
  let w := Nat.iter n fire
             (exec (requestGenerativeAIAnswer tabID payload) (start c t0)) in
  this (runtime w) = c ∧ now w = t0 + 2000 * n ∧
  timers w = [(t0 + 2000 * S n, again tabID payload)] ∧
  stamped_calls w = [].
Proof.
  intros Hready. induction n as [|n IH].
  - unfold exec, start, stamped_calls, requestGenerativeAIAnswer. unfold_M.
    rewrite Hready. cbn [Nat.iter nat_rect fst snd runtime now timers log this
      schedule add_timer fmap list_fmap app].
    split_and!; [done | lia | | done].
    same_time.
  - cbv zeta in *. destruct IH as (Hthis & Hnow & Htimers & Hcalls).
    change (Nat.iter (S n) fire ?w) with (fire (Nat.iter n fire w)).
    set (w := Nat.iter n fire _) in *.
    assert (Hready' : isUIReady (this (runtime w)) = false)
      by (by rewrite Hthis).
    destruct (fire_not_ready _ _ _ _ Hready' Htimers) as (H1 & H2 & H3 & H4).
    rewrite H1, H2, H3, H4, Hnow.
    split_and!; [done | lia | | done].
    same_time.
Qed.

(** C4. [requestGenerativeAIAnswer] waits for the UI to be ready. Called
    when it is ready, it calls the category's handler at once: the
    feature-dev handler for a [featuredev] tab, the chat handler otherwise.
    Called before, it calls no handler and sets a timer of 2000 ms that
    calls it again, and so on for as long as the UI is not ready: after any
    number of retries no handler has been called and the next retry is
    pending. Once [uiReady] has run, the next retry calls the handler, once,
    and sets no further timer. *)
Theorem requestGenerativeAIAnswer_gated :
  let invocation :=
    Call (if bool_decide (category c tabID = Some "featuredev")
          then featureDevChatConnector else cwChatConnector)
      "requestGenerativeAIAnswer" [Str tabID; Payload payload] in
  let w0 := exec (requestGenerativeAIAnswer tabID payload) (start c t0) in
  (isUIReady c = true →
     stamped_calls w0 = [(t0, invocation)] ∧ timers w0 = []) ∧
  (isUIReady c = false →
     ∀ n, let w := Nat.iter n fire w0 in
       stamped_calls w = [] ∧
       timers w = [(t0 + 2000 * S n, again tabID payload)] ∧
       ∀ t, t ≤ t0 + 2000 * S n →
         let w' := fire (exec uiReady (elapse t w)) in
         stamped_calls w' = [(t0 + 2000 * S n, invocation)] ∧
         timers w' = []).
Proof.
  cbv zeta. split.
  - intros Hready.
    unfold exec, start, stamped_calls, requestGenerativeAIAnswer. unfold_M.
    rewrite Hready. cbn [switch fst snd runtime this].
    case_bool_decide; done.
  - intros Hready n.
    destruct (waiting n Hready) as (Hthis & Hnow & Htimers & Hcalls).
    cbv zeta in *. split_and!; [done | done |]. intros t Ht.
    set (w := Nat.iter n fire _) in *.
    destruct (exec_uiReady (elapse t w)) as (Htabs & Hr & Hti & Hno & Hca).
    assert (Htimers' : timers (exec uiReady (elapse t w)) =
                       [(t0 + 2000 * S n, again tabID payload)])
      by (by rewrite Hti).
    destruct (fire_ready _ _ _ _ Hr Htimers') as (Hnone & Hcall).
    split; [|done]. rewrite Hcall, Hca, Hno.
    unfold elapse at 1 2. cbn [now]. unfold stamped_calls at 1.
    cbn [log elapse]. fold (stamped_calls w). rewrite Hcalls, Hnow.
    unfold category in *. rewrite Htabs. cbn [elapse runtime]. rewrite Hthis.
    cbn [app]. same_time.
Qed.

End Readiness.

(** *** Promises *)

Lemma requestGenerativeAIAnswer_silent (rt : Runtime) (tabID : string)
  (payload : ChatPayload) :
  let r := run (requestGenerativeAIAnswer tabID payload) rt in
  completion r = Normal (nextPromise rt) ∧
  nextPromise (final r) = S (nextPromise rt) ∧
  omap settles (effects r) = [].
Proof.
  unfold requestGenerativeAIAnswer. unfold_M.
  destruct (isUIReady (this rt)); simpl; [|done].
  case_bool_decide; done.
Qed.

Lemma trace_exec {A} (m : M A) (w : World) :
  trace (exec m w) = trace w ++ effects (run m (runtime w)).
Proof.
  unfold trace, exec, effects, run. destruct (m (runtime w)) as [[r rt] es].
  cbn. rewrite fmap_app. f_equal. induction es as [|e es IH]; [done|].
  cbn. by rewrite IH.
Qed.

Lemma runtime_exec {A} (m : M A) (w : World) :
  runtime (exec m w) = final (run m (runtime w)).
Proof.
  unfold exec, final, run. by destruct (m (runtime w)) as [[r rt] es].
Qed.

Lemma promise_state_unsettled (p : nat) (es : list Effect) :
  p ∉ omap settles es → promise_state p es = Pending.
Proof.
  induction es as [|e es IH]; [done|]. intros Hnot.
  destruct e; cbn in *; try (by apply IH);
    apply not_elem_of_cons in Hnot as [Hne Hnot];
    rewrite bool_decide_false by congruence; by apply IH.
Qed.

Lemma exec_settled_below {A} (m : M A) (w : World) :
  allocates m → settled_below w → settled_below (exec m w).
Proof.
  intros Hm Hw. destruct (Hm (runtime w)) as [Hle Hnew].
  unfold settled_below in *. rewrite trace_exec, runtime_exec, omap_app.
  apply Forall_app. split.
  - eapply Forall_impl; [exact Hw|]. intros q Hq. cbv beta in *. lia.
  - eapply Forall_impl; [exact Hnew|]. intros q Hq. cbv beta in *. lia.
Qed.

Lemma exec_unsettled {A} (p : nat) (m : M A) (w : World) :
  allocates m → unsettled p w → unsettled p (exec m w).
Proof.
  intros Hm [Hlt Hnot]. destruct (Hm (runtime w)) as [Hle Hnew].
  unfold unsettled. rewrite trace_exec, runtime_exec, omap_app.
  split; [lia|]. rewrite elem_of_app. intros [Hin|Hin]; [done|].
  rewrite Forall_forall in Hnew. specialize (Hnew p Hin). lia.
Qed.

(** *** The selection over time *)

Section Selection.

Context (isFormButtonCodeTransform : string → bool).
Context (JSON_parse : jsstring → option JsValue).

Lemma invoke_keeps_selection (rt : Runtime) (m : Method.t) :
  at_most_one_selected (tabsStorage (this rt)) →
  at_most_one_selected
    (tabsStorage (this (final (run
       (invoke isFormButtonCodeTransform JSON_parse m) rt)))).
Proof.
  intros Hinv.
  pose proof (invoke_storage isFormButtonCodeTransform JSON_parse rt m) as Hst.
  simpl in Hst.
  destruct m as [op|i| |data|ty]; try (rewrite Hst; exact Hinv).
  - destruct op; rewrite Hst; try exact Hinv.
    + by apply setSelectedTab_preserves.
    + by apply deleteTab_preserves.
  - rewrite Hst. by apply addTab_preserves.
Qed.

Lemma turns_keep_selection (ts : list Turn) (w : World) :
  at_most_one_selected (tabsStorage (this (runtime w))) →
  at_most_one_selected
    (tabsStorage (this (runtime
       (turns isFormButtonCodeTransform JSON_parse ts w)))).
Proof.
  revert w. induction ts as [|t ts IH]; intros w Hinv; [done|].
  cbn [turns foldl]. apply IH. destruct t as [|m|t]; cbn [turn].
  - by rewrite fire_keeps_fields.
  - rewrite runtime_exec. by apply invoke_keeps_selection.
  - done.
Qed.

(** C8. In a registry with at most one tab marked selected, the selection
    is that tab, or none. There [onTabChange] on a registered identifier
    gets the previous selection (or none) from [setSelectedTab] and hands
    it to the chat handler, and marks the identifier, which is then the
    only marked one: the previous selection, if different, is unmarked.
    Every method of the router keeps "at most one tab is marked selected",
    [onTabAdd] included, which inserts its tab marked selected; so it holds
    at any time, after every schedule of calls and timers. *)
Theorem selection_invariant (rt : Runtime) :
  at_most_one_selected (tabsStorage (this rt)) →
  (∀ k tk, getTab k (tabsStorage (this rt)) = Some tk →
           isSelected tk = true → selectedTab (tabsStorage (this rt)) = Some k) ∧
  ((∀ k tk, getTab k (tabsStorage (this rt)) = Some tk → isSelected tk = false) →
   selectedTab (tabsStorage (this rt)) = None) ∧
  (∀ tabId t, getTab tabId (tabsStorage (this rt)) = Some t →
     let r := run (onTabChange tabId) rt in
     let tabs' := tabsStorage (this (final r)) in
     (setSelectedTab tabId (tabsStorage (this rt))).1 =
       selectedTab (tabsStorage (this rt)) ∧
     effects r = [Call cwChatConnector "onTabChange"
                    [Str tabId; opt_str (selectedTab (tabsStorage (this rt)))]] ∧
     isSelected <$> getTab tabId tabs' = Some true ∧
     (∀ j tj, getTab j tabs' = Some tj → isSelected tj = true → j = tabId)) ∧
  (∀ tabID,
     let tabs' := tabsStorage (this (final (run (onTabAdd tabID) rt))) in
     isSelected <$> getTab tabID tabs' = Some true ∧
     (∀ j tj, getTab j tabs' = Some tj → isSelected tj = true → j = tabID)) ∧
  (∀ m : Method.t,
     at_most_one_selected
       (tabsStorage (this (final (run
          (invoke isFormButtonCodeTransform JSON_parse m) rt))))) ∧
  (∀ (ts : list Turn) (w : World), runtime w = rt →
     at_most_one_selected
       (tabsStorage (this (runtime
          (turns isFormButtonCodeTransform JSON_parse ts w))))).
Proof.
  intros Hinv. split_and!.
  - intros k tk Hk Hsel. by eapply selectedTab_unique.
  - intros Hnone. destruct (selectedTab _) as [k|] eqn:Hprev; [|done].
    apply selectedTab_Some in Hprev as (tk & Hk & Hsel).
    pose proof (Hnone k tk Hk). congruence.
  - intros tabId t Hk. unfold getTab in *.
    destruct (setSelectedTab_marks _ _ _ Hk) as (Hprev & Hmark & Honly).
    unfold onTabChange. unfold_M. rewrite Hprev. split_and!; [done | done | |].
    + by rewrite Hmark.
    + by apply Honly.
  - intros tabID. unfold onTabAdd. unfold_M. unfold getTab. split.
    + unfold addTab. simpl. by rewrite lookup_insert_eq.
    + intros j tj Hj Hsel.
      by apply (addTab_selected (tabsStorage (this rt))
                  {| TabsStorage.id := tabID; type := "unknown";
                     status := "free"; isSelected := true;
                     openInteractionType := None |} eq_refl j tj Hj).
  - intros m. by apply invoke_keeps_selection.
  - intros ts w <-. by apply turns_keep_selection.
Qed.

End Selection.

Section Promises.

Context (isFormButtonCodeTransform : string → bool).
Context (JSON_parse : jsstring → option JsValue).

Lemma invoke_allocates (m : Method.t) :
  allocates (invoke isFormButtonCodeTransform JSON_parse m).
Proof.
  intros rt. destruct m as [op|i| |data|ty]; [destruct op|..];
    unfold_methods; unfold_M; split_cases;
    (split; [lia | repeat constructor; lia]).
Qed.

Lemma run_callback_allocates (cb : Callback) : allocates (run_callback cb).
Proof.
  destruct cb as [tabID payload].
  exact (invoke_allocates
           (Method.dispatch (Op.requestGenerativeAIAnswer tabID payload))).
Qed.

Lemma turn_settled_below (w : World) (t : Turn) :
  settled_below w →
  settled_below (turn isFormButtonCodeTransform JSON_parse w t).
Proof.
  intros Hw. destruct t as [|m|t]; cbn.
  - unfold fire. destruct (timers w) as [|[due cb] rest]; [done|].
    apply exec_settled_below; [apply run_callback_allocates | exact Hw].
  - apply exec_settled_below; [apply invoke_allocates | exact Hw].
  - exact Hw.
Qed.

Lemma turn_unsettled (p : nat) (w : World) (t : Turn) :
  unsettled p w → unsettled p (turn isFormButtonCodeTransform JSON_parse w t).
Proof.
  intros Hw. destruct t as [|m|t]; cbn.
  - unfold fire. destruct (timers w) as [|[due cb] rest]; [done|].
    apply exec_unsettled; [apply run_callback_allocates | exact Hw].
  - apply exec_unsettled; [apply invoke_allocates | exact Hw].
  - exact Hw.
Qed.

Lemma turns_settled_below (ts : list Turn) (w : World) :
  settled_below w →
  settled_below (turns isFormButtonCodeTransform JSON_parse ts w).
Proof.
  revert w. induction ts as [|t ts IH]; intros w Hw; [done|].
  cbn. apply IH. by apply turn_settled_below.
Qed.

Lemma turns_unsettled (p : nat) (ts : list Turn) (w : World) :
  unsettled p w →
  unsettled p (turns isFormButtonCodeTransform JSON_parse ts w).
Proof.
  revert w. induction ts as [|t ts IH]; intros w Hw; [done|].
  cbn. apply IH. by apply turn_unsettled.
Qed.

(** C9. The promise [requestGenerativeAIAnswer] returns never settles.
    Whatever the router did before the call, ready or not, and whatever
    happens after it (timers firing, further calls, [uiReady]), the log
    holds neither a [resolve] nor a [reject] of that promise: the executor
    calls neither, and a retry makes a promise of its own. *)
Theorem requestGenerativeAIAnswer_never_settles (c : Connector) (t0 : nat)
  (before after : list Turn) (tabID : string) (payload : ChatPayload) :
  let w := turns isFormButtonCodeTransform JSON_parse before (start c t0) in
  let p := nextPromise (runtime w) in
  completion (run (requestGenerativeAIAnswer tabID payload) (runtime w))
    = Normal p ∧
  promise_state p
    (trace (turns isFormButtonCodeTransform JSON_parse after
              (exec (requestGenerativeAIAnswer tabID payload) w)))
    = Pending.
Proof.
  cbv zeta. set (w := turns _ _ before _).
  destruct (requestGenerativeAIAnswer_silent (runtime w) tabID payload)
    as (Hret & Hnext & Hsilent).
  split; [exact Hret|].
  apply promise_state_unsettled, turns_unsettled.
  assert (Hw : settled_below w).
  { apply turns_settled_below. unfold settled_below, start, trace. cbn.
    constructor. }
  unfold unsettled. rewrite trace_exec, runtime_exec, omap_app, Hsilent, Hnext.
  split; [lia|]. rewrite app_nil_r. intros Hin.
  unfold settled_below in Hw. rewrite Forall_forall in Hw.
  specialize (Hw _ Hin). lia.
Qed.

End Promises.

(** ** The theorems at concrete inputs *)

(** C1. The text [{] is not JSON: [JSON.parse] throws, nothing catches it,
    and the promise [handleMessageReceive] returns is rejected with the
    [SyntaxError]. The text [null] parses, and reading [sender] off the
    result throws a [TypeError] that rejects the promise likewise. *)
Theorem handleMessageReceive_rejects_malformed :
  let malformed :=
    run (handleMessageReceive JSON.parse (Some (js "{"))) (booted new_connector) in
  let null :=
    run (handleMessageReceive JSON.parse (Some (js "null"))) (booted new_connector) in
  JSON.parse (js "{") = None ∧
  completion malformed = Normal 0 ∧
  effects malformed = [newPromise 0; reject 0 SyntaxError] ∧
  promise_state 0 (effects malformed) = Rejected SyntaxError ∧
  JSON.parse (js "null") = Some JsNull ∧
  promise_state 0 (effects null) = Rejected TypeError.
Proof. vm_compute. repeat split. Qed.

(** C2 fails as it stands: on the empty registry [onInfoLinkClick] for tab
    [t1] calls the chat handler. *)
Lemma unknown_tab_is_dispatched : ¬ every_dispatch_drops_unknown_tabs.
Proof.
  intros Hall.
  destruct (Hall example_isFormButton (booted new_connector)
              (Op.onInfoLinkClick "t1" "https://aws.amazon.com") eq_refl)
    as (_ & Hcalls & _).
  discriminate Hcalls.
Qed.

Lemma unknown_tab_dispatch_witness :
  getTab "t1" (tabsStorage new_connector) = None ∧
  effects (run (perform example_isFormButton
                  (Op.onSourceLinkClick "t1" "m1" "https://aws.amazon.com"))
             (booted new_connector)) = [] ∧
  effects (run (perform example_isFormButton (Op.transform "t1"))
             (booted new_connector)) =
  [Call codeTransformChatConnector "transform" [Str "t1"]].
Proof.
  split_and!.
  - reflexivity.
  - apply (unknown_tab_dispatch example_isFormButton (booted new_connector)
             (Op.onSourceLinkClick "t1" "m1" "https://aws.amazon.com")).
    reflexivity.
  - apply (unknown_tab_dispatch example_isFormButton (booted new_connector)
             (Op.transform "t1")).
    reflexivity.
Defined.

(** The scenario of the specification: a tab just added is of category
    [unknown] and its follow-ups go to the commons handler; once it is a
    feature-dev tab they go to the feature-dev handler. *)
Lemma onFollowUpClicked_routes_witness :
  let added := final (run (onTabAdd "t1") (booted new_connector)) in
  let typed := booted (with_tabs {["t1" := tab_of "t1" "featuredev" true]} true) in
  effects (run (onFollowUpClicked "t1" "m1" (Str "explain")) added) =
    [Call amazonqCommonsConnector "followUpClicked" [Str "t1"; Str "explain"]] ∧
  effects (run (onFollowUpClicked "t1" "m1" (Str "explain")) typed) =
    [Call featureDevChatConnector "followUpClicked" [Str "t1"; Str "explain"]] ∧
  effects (run (onFollowUpClicked "t2" "m1" (Str "explain")) typed) =
    [Call cwChatConnector "followUpClicked" [Str "t2"; Str "m1"; Str "explain"]].
Proof.
  cbv zeta. split_and!.
  - apply (onFollowUpClicked_routes
             (final (run (onTabAdd "t1") (booted new_connector)))
             "t1" "m1" (Str "explain")).
    reflexivity.
  - apply (onFollowUpClicked_routes
             (booted (with_tabs {["t1" := tab_of "t1" "featuredev" true]} true))
             "t1" "m1" (Str "explain")).
    reflexivity.
  - apply (onFollowUpClicked_routes
             (booted (with_tabs {["t1" := tab_of "t1" "featuredev" true]} true))
             "t2" "m1" (Str "explain")); by vm_compute.
Defined.

(** Removing a chat tab tells the chat handler, on a registry in which the
    tab is no more; removing [t2], which was never added, does nothing. *)
Lemma onTabRemove_deletes_then_notifies_witness :
  let rt := booted (with_tabs {["t1" := tab_of "t1" "cwc" true]} true) in
  effects (run (onTabRemove "t1") rt) =
    [Call cwChatConnector "onTabRemove" [Str "t1"]] ∧
  seen (onTabRemove "t1") rt =
    [(Call cwChatConnector "onTabRemove" [Str "t1"], ∅)] ∧
  Forall (λ ev, ev.2 = deleteTab "t1" (tabsStorage (this rt)) ∧
                 getTab "t1" ev.2 = None)
         (seen (onTabRemove "t1") rt) ∧
  (effects (run (onTabRemove "t2") rt) = [] ∧ final (run (onTabRemove "t2") rt) = rt).
Proof.
  cbv zeta.
  destruct (onTabRemove_deletes_then_notifies
              (booted (with_tabs {["t1" := tab_of "t1" "cwc" true]} true)) "t1")
    as (_ & _ & _ & Hchat & _ & _ & _ & Horder & _).
  destruct (onTabRemove_deletes_then_notifies
              (booted (with_tabs {["t1" := tab_of "t1" "cwc" true]} true)) "t2")
    as (_ & _ & _ & _ & _ & _ & _ & _ & Habsent).
  split; [exact (Hchat eq_refl)|].
  split; [reflexivity|].
  split; [exact Horder | exact (Habsent eq_refl)].
Defined.

Lemma onTabAdd_inserts_unknown_free_selected_witness :
  getTab "t2"
    (tabsStorage (this (final (run (onTabAdd "t1")
       (booted (with_tabs {["t2" := tab_of "t2" "cwc" false]} true)))))) =
  Some (tab_of "t2" "cwc" false).
Proof.
  destruct (onTabAdd_inserts_unknown_free_selected
              (booted (with_tabs {["t2" := tab_of "t2" "cwc" false]} true)) "t1")
    as (_ & _ & _ & Hother).
  rewrite Hother; [reflexivity | discriminate].
Defined.

Lemma handleMessageReceive_demultiplexes_witness :
  let text := json "{'sender':'featureDevChat','tabID':'t1'}" in
  let message :=
    JsObject [(js "sender", JsString (js "featureDevChat"));
              (js "tabID", JsString (js "t1"))] in
  JSON.parse text = Some message ∧
  calls (effects (run (handleMessageReceive JSON.parse (Some text))
                    (booted new_connector))) =
  [Call featureDevChatConnector "handleMessageReceive" [Obj message]].
Proof.
  cbv zeta. split; [by vm_compute|].
  apply (handleMessageReceive_demultiplexes JSON.parse (booted new_connector)
           (json "{'sender':'featureDevChat','tabID':'t1'}")
           (JsObject [(js "sender", JsString (js "featureDevChat"));
                      (js "tabID", JsString (js "t1"))])).
  - by vm_compute.
  - by vm_compute.
Defined.

(** Called at time 5 before the UI is ready: after two retries nothing has
    been called and the third is due at 6005; with [uiReady] at 4500 that
    retry calls the chat handler. *)
Lemma requestGenerativeAIAnswer_gated_witness :
  let w := Nat.iter 2 fire
             (exec (requestGenerativeAIAnswer "t1" hello) (start new_connector 5)) in
  stamped_calls w = [] ∧
  timers w = [(5 + 2000 * 3, again "t1" hello)] ∧
  stamped_calls (fire (exec uiReady (elapse 4500 w))) =
  [(5 + 2000 * 3,
    Call cwChatConnector "requestGenerativeAIAnswer" [Str "t1"; Payload hello])].
Proof.
  cbv zeta.
  destruct (requestGenerativeAIAnswer_gated new_connector 5 "t1" hello)
    as [_ Hwait].
  destruct (Hwait eq_refl 2) as (Hcalls & Htimers & Hready).
  split_and!; [exact Hcalls | exact Htimers |].
  destruct (Hready 4500) as [Hcall _]; [lia | exact Hcall].
Defined.

(** With [a] selected, selecting [b] hands [a] to the chat handler; adding
    [c] then leaves [c] the only marked tab; and the invariant holds after
    a schedule that adds, selects and removes tabs. *)
Lemma selection_invariant_witness :
  let tabs : gmap string Tab :=
    {["a" := tab_of "a" "cwc" true; "b" := tab_of "b" "featuredev" false]} in
  let rt := booted (with_tabs tabs true) in
  at_most_one_selected tabs ∧
  effects (run (onTabChange "b") rt) =
    [Call cwChatConnector "onTabChange" [Str "b"; Str "a"]] ∧
  (∀ j tj, getTab j (tabsStorage (this (final (run (onTabAdd "c") rt)))) = Some tj →
           isSelected tj = true → j = "c") ∧
  at_most_one_selected
    (tabsStorage (this (runtime
       (turns example_isFormButton JSON.parse
          [Invoke (Method.onTabAdd "c");
           Invoke (Method.dispatch (Op.onTabChange "a"));
           Invoke (Method.onTabAdd "d");
           Invoke (Method.dispatch (Op.onTabRemove "d"))]
          {| runtime := rt; now := 0; timers := []; log := [] |})))).
Proof.
  cbv zeta.
  assert (Hone : at_most_one_selected
    ({["a" := tab_of "a" "cwc" true; "b" := tab_of "b" "featuredev" false]}
       : gmap string Tab)).
  { intros i j ti tj Hi Hj Hseli Hselj.
    apply lookup_insert_Some in Hi as [[<- <-]|[_ Hi]];
      apply lookup_insert_Some in Hj as [[<- <-]|[_ Hj]]; try done;
      apply lookup_singleton_Some in Hi as [<- <-] ||
      apply lookup_singleton_Some in Hj as [<- <-]; done. }
  pose proof (selection_invariant example_isFormButton JSON.parse
    (booted (with_tabs
       {["a" := tab_of "a" "cwc" true; "b" := tab_of "b" "featuredev" false]}
       true)) Hone) as (_ & _ & Hchange & Hadd & _ & Halways).
  split_and!; [exact Hone | | |].
  - destruct (Hchange "b" (tab_of "b" "featuredev" false) eq_refl)
      as (_ & Heffects & _). exact Heffects.
  - exact (proj2 (Hadd "c")).
  - exact (Halways _
      {| runtime := booted (with_tabs
           {["a" := tab_of "a" "cwc" true; "b" := tab_of "b" "featuredev" false]}
           true);
         now := 0; timers := []; log := [] |} eq_refl).
Defined.

(** With a predicate that takes every id for a code-transform form button,
    [open-settings] on a chat tab does both things in one call. *)
Lemma onFormButtonClick_routes_by_action_witness :
  let action :=
    {| FormAction.id := "open-settings"; FormAction.text := None;
       FormAction.formItemValues := None |} in
  effects (run (onFormButtonClick (λ _, true) "t1" "m1" action)
             (booted (with_tabs {["t1" := tab_of "t1" "cwc" true]} true))) =
  [Call codeTransformChatConnector "onFormButtonClick" [Str "t1"; Action action];
   sendMessageToExtension
     [("command", "open-settings"); ("type", ""); ("tabType", "cwc")]].
Proof.
  cbv zeta.
  rewrite (onFormButtonClick_routes_by_action (λ _, true)
             (booted (with_tabs {["t1" := tab_of "t1" "cwc" true]} true))
             "t1" "m1").
  reflexivity.
Defined.

(** A call before the UI is ready, a retry, [uiReady], and the retry that
    reaches the chat handler: the first promise is still pending. *)
Lemma requestGenerativeAIAnswer_never_settles_witness :
  let w := turns example_isFormButton JSON.parse
             [Fire; Invoke Method.uiReady; Fire]
             (exec (requestGenerativeAIAnswer "t1" hello) (start new_connector 0)) in
  calls (trace w) =
    [Call cwChatConnector "requestGenerativeAIAnswer" [Str "t1"; Payload hello]] ∧
  promise_state 0 (trace w) = Pending.
Proof.
  cbv zeta. split; [reflexivity|].
  apply (requestGenerativeAIAnswer_never_settles example_isFormButton JSON.parse
           new_connector 0 [] [Fire; Invoke Method.uiReady; Fire] "t1" hello).
Defined.

(** * Further properties of the router *)

Section Methods.

Context (isFormButtonCodeTransform : string → bool).
Context (JSON_parse : jsstring → option JsValue).

(** X1. [onUpdateTabType] reads [tab.openInteractionType] without a
    guard of its own and still never throws: the read sits under the case
    [cwc], which an undefined tab never reaches. For a [cwc] tab it hands the
    tab's [openInteractionType] (or [undefined]) to the chat handler's
    [onTabAdd]; for every other tab, and for none, it does nothing. *)
Theorem onUpdateTabType_guarded (rt : Runtime) (tabID : string) :
  run (onUpdateTabType tabID) rt =
  (Normal tt, rt,
   match getTab tabID (tabsStorage (this rt)) with
   | Some tab =>
     if bool_decide (type tab = "cwc")
     then [Call cwChatConnector "onTabAdd"
             [Str tabID; opt_str (openInteractionType tab)]]
     else []
   | None => []
   end).
Proof.
  unfold onUpdateTabType. unfold_M.
  destruct (getTab tabID (tabsStorage (this rt))) as [tab|]; simpl;
    repeat case_bool_decide; try reflexivity; exfalso; congruence.
Qed.

Ltac split_senders :=
  repeat match goal with
  | |- context [is_string ?v ?n] => destruct (is_string v n); simpl
  end;
  rewrite ?bool_decide_true by done.

(** X2. How the promise of [handleMessageReceive] ends. It is rejected with
    a [SyntaxError] exactly when the text does not parse and with a
    [TypeError] exactly when the text parses to [null]; for every other
    message, and when there is no data at all, it is fulfilled. The call
    itself always returns the promise and leaves the router's fields alone. *)
Theorem handleMessageReceive_outcome (rt : Runtime) (data : option jsstring) :
  let r := run (handleMessageReceive JSON_parse data) rt in
  completion r = Normal (nextPromise rt) ∧
  this (final r) = this rt ∧
  promise_state (nextPromise rt) (effects r) =
    match data with
    | None => Fulfilled
    | Some text =>
      match JSON_parse text with
      | None => Rejected SyntaxError
      | Some JsNull => Rejected TypeError
      | Some _ => Fulfilled
      end
    end.
Proof.
  unfold handleMessageReceive, sender_is. unfold_M.
  destruct data as [text|]; simpl; [|by rewrite bool_decide_true].
  destruct (JSON_parse text) as [v|]; simpl; [|by rewrite bool_decide_true].
  destruct v; simpl; split_senders; done.
Qed.

(** X3. A host message is routed by its text alone. Neither the registry
    nor the readiness flag is read: in two routers that agree only on the
    name of the next promise, the same data has the same effects. *)
Theorem handleMessageReceive_reads_no_field (rt1 rt2 : Runtime)
  (data : option jsstring) :
  nextPromise rt1 = nextPromise rt2 →
  effects (run (handleMessageReceive JSON_parse data) rt1) =
  effects (run (handleMessageReceive JSON_parse data) rt2).
Proof.
  intros Hnext. unfold handleMessageReceive, sender_is. unfold_M.
  rewrite Hnext.
  destruct data as [text|]; [|done].
  destruct (JSON_parse text) as [v|]; [|done].
  destruct v; simpl; split_senders; done.
Qed.

Ltac one_target :=
  simpl; intros Hin;
  first [ by apply elem_of_nil in Hin
        | apply list_elem_of_singleton in Hin; subst; simpl;
          first [ done | by eexists | by f_equal | by right
                | by left; f_equal ] ].

(** X4. Who can be reached from where. A dispatch operation calls the
    feature-dev handler only for a tab of category [featuredev], and the
    commons handler only for a tab that is in the registry. It calls the
    code-transform handler only for a [codetransform] tab or from
    [transform] and [onFormButtonClick], and the chat handler only for a
    [cwc] tab or from the four methods that default to it. *)
Theorem reached_handlers (rt : Runtime) (op : Op.t) (h : Handler) :
  h ∈ targets (effects (run (perform isFormButtonCodeTransform op) rt)) →
  match h with
  | featureDevChatConnector =>
    category (this rt) (Op.tabID op) = Some "featuredev"
  | amazonqCommonsConnector =>
    is_Some (getTab (Op.tabID op) (tabsStorage (this rt)))
  | codeTransformChatConnector =>
    category (this rt) (Op.tabID op) = Some "codetransform" ∨
    match op with
    | Op.transform _ | Op.onFormButtonClick _ _ _ => True
    | _ => False
    end
  | cwChatConnector =>
    category (this rt) (Op.tabID op) = Some "cwc" ∨
    match op with
    | Op.onInfoLinkClick _ _ | Op.requestGenerativeAIAnswer _ _
    | Op.onFollowUpClicked _ _ _ | Op.onTabChange _ => True
    | _ => False
    end
  end.
Proof.
  destruct op; unfold_methods; unfold_M; unfold targets;
    try destruct (isUIReady (this rt));
    try destruct (isFormButtonCodeTransform (FormAction.id action));
    try (destruct (getTab tabID (tabsStorage (this rt))) as [tab|] eqn:Htab);
    simpl; repeat case_bool_decide; try rewrite Htab in *; simplify_eq/=;
    one_target.
Qed.

(** X5. A dispatch operation makes at most one call and sends at most one
    message, and a call it makes names the tab the operation was keyed by
    as its first argument: no event is handed on under another tab. *)
Theorem dispatch_is_keyed (rt : Runtime) (op : Op.t) :
  let es := effects (run (perform isFormButtonCodeTransform op) rt) in
  length (calls es) ≤ 1 ∧ length (messages es) ≤ 1 ∧
  Forall (keyed_by (Op.tabID op)) es.
Proof.
  destruct op; unfold_methods; unfold_M;
    try destruct (isUIReady (this rt));
    try destruct (isFormButtonCodeTransform (FormAction.id action));
    try (destruct (getTab tabID (tabsStorage (this rt))) as [tab|]);
    simpl; repeat case_bool_decide; simpl;
    (split_and!; [lia | lia | repeat constructor]).
Qed.

(** X6. Of the registry a dispatch operation reads the tab's category and
    nothing else, and of the readiness flag only [requestGenerativeAIAnswer]
    reads anything: in two routers where the tab has the same category the
    operation has the same effects. ([onTabChange] also passes on the
    selection, [onUpdateTabType] the tab's [openInteractionType].) *)
Theorem dispatch_reads_category (rt1 rt2 : Runtime) (op : Op.t) :
  nextPromise rt1 = nextPromise rt2 →
  category (this rt1) (Op.tabID op) = category (this rt2) (Op.tabID op) →
  let es1 := effects (run (perform isFormButtonCodeTransform op) rt1) in
  let es2 := effects (run (perform isFormButtonCodeTransform op) rt2) in
  match op with
  | Op.onTabChange _ | Op.onUpdateTabType _ => True
  | Op.requestGenerativeAIAnswer _ _ =>
    isUIReady (this rt1) = isUIReady (this rt2) → es1 = es2
  | _ => es1 = es2
  end.
Proof.
  intros Hnext Hcat. destruct op; try exact I; cbv zeta;
    try intros Hready;
    unfold_methods; unfold_M; rewrite ?Hnext, ?Hready, ?Hcat;
    try destruct (isUIReady (this rt2));
    try destruct (isFormButtonCodeTransform (FormAction.id action));
    simpl; rewrite ?Hcat; repeat case_bool_decide; reflexivity.
Qed.

(** X7. [onCopyCodeToClipboard] and [onCodeInsertToCursorPosition] route
    alike: on the same arguments they reach the same handler with the same
    arguments. The feature-dev handler gets the tab, the code, its type and
    the references; the message id and the five fields after the references
    never reach it. *)
Theorem copy_and_insert_route_alike (rt : Runtime) (tabID messageId : string)
  (code type_ codeReference eventId codeBlockIndex totalCodeBlocks userIntent
   codeBlockLanguage : Value) :
  let copy :=
    omap call_shape (effects (run (onCopyCodeToClipboard tabID messageId code
      type_ codeReference eventId codeBlockIndex totalCodeBlocks userIntent
      codeBlockLanguage) rt)) in
  let insert :=
    omap call_shape (effects (run (onCodeInsertToCursorPosition tabID messageId
      code type_ codeReference eventId codeBlockIndex totalCodeBlocks userIntent
      codeBlockLanguage) rt)) in
  copy = insert ∧
  ∀ args, (featureDevChatConnector, args) ∈ copy →
          args = [Str tabID; code; type_; codeReference].
Proof.
  unfold onCopyCodeToClipboard, onCodeInsertToCursorPosition. unfold_M.
  repeat case_bool_decide; simpl; (split; [reflexivity|]); intros args Hin.
  - apply list_elem_of_singleton in Hin. discriminate Hin.
  - apply list_elem_of_singleton in Hin. by simplify_eq.
  - by apply elem_of_nil in Hin.
Qed.

(** X8. Whatever the router itself sends to the extension starts with a
    [command] field, and the command is [ui-is-ready], [ui-focus] or
    [open-settings]. *)
Theorem messages_carry_command (rt : Runtime) (m : Method.t) :
  Forall has_command
    (effects (run (invoke isFormButtonCodeTransform JSON_parse m) rt)).
Proof.
  destruct m as [op|i| |data|ty]; [destruct op|..];
    unfold_methods; unfold_M; split_cases;
    repeat constructor; set_solver.
Qed.

(** X9. [uiReady] has no guard against a second call: called again, it sends
    [ui-is-ready] again and registers every listener again, and leaves the
    router as the first call left it. The message listener is registered
    only if [onMessageReceived] was given, the focus and blur listeners
    always. *)
Theorem uiReady_again (rt : Runtime) :
  let r1 := run uiReady rt in
  let r2 := run uiReady (final r1) in
  isUIReady (this (final r1)) = true ∧
  final r2 = final r1 ∧ effects r2 = effects r1 ∧
  effects r1 =
    sendMessageToExtension [("command", "ui-is-ready")] ::
    (if onMessageReceived (this rt)
     then [addEventListener "message" onMessage] else []) ++
    [addEventListener "focus" onFocus; addEventListener "blur" onFocus].
Proof.
  unfold uiReady. unfold_M.
  destruct (onMessageReceived (this rt)); done.
Qed.

(** X10. A tab that is added and removed before its category is known has
    no handler told of its going: for an identifier that was not in the
    registry, [onTabAdd] and then [onTabRemove] return normally, call
    nobody, since the tab is still of category [unknown], which the switch
    of [onTabRemove] does not list, and leave the identifier unregistered
    and the readiness flag as it was. *)
Theorem onTabAdd_then_onTabRemove (rt : Runtime) (tabID : string) :
  getTab tabID (tabsStorage (this rt)) = None →
  let r := run (onTabAdd tabID ;; onTabRemove tabID) rt in
  completion r = Normal tt ∧ effects r = [] ∧
  getTab tabID (tabsStorage (this (final r))) = None ∧
  isUIReady (this (final r)) = isUIReady (this rt).
Proof.
  intros Hnone. unfold onTabAdd, onTabRemove. unfold_M.
  unfold getTab, addTab, deleteTab in *.
  simpl. rewrite lookup_insert_eq. simpl.
  split_and!; [done | done | apply lookup_delete_eq | done].
Qed.

(** X11. Removing a tab twice tells its handler once: the second
    [onTabRemove] finds no tab, calls nobody and changes nothing. *)
Theorem onTabRemove_twice (rt : Runtime) (tabID : string) :
  let once := run (onTabRemove tabID) rt in
  let twice := run (onTabRemove tabID ;; onTabRemove tabID) rt in
  final twice = final once ∧ effects twice = effects once.
Proof.
  unfold onTabRemove. unfold_M. unfold getTab, deleteTab.
  repeat case_bool_decide; simpl in *;
    rewrite ?lookup_delete_eq in *; simplify_eq/=;
    by rewrite ?delete_delete_eq.
Qed.

End Methods.

(** ** Schedules *)

Lemma add_timer_callbacks (t : nat * Callback) (ts : list (nat * Callback)) :
  (add_timer t ts).*2 ≡ₚ t.2 :: ts.*2.
Proof.
  induction ts as [|u ts IH].
  - reflexivity.
  - cbn [add_timer]. destruct (t.1 <? u.1).
    + reflexivity.
    + rewrite !fmap_cons, IH. apply Permutation_swap.
Qed.

(** With the UI ready the first pending retry makes its call and leaves
    the other timers as they are. *)
Lemma fire_delivers (w : World) (due : nat) (cb : Callback)
  (rest : list (nat * Callback)) :
  isUIReady (this (runtime w)) = true →
  timers w = (due, cb) :: rest →
  timers (fire w) = rest ∧
  (stamped_calls (fire w)).*2 =
  (stamped_calls w).*2 ++ [delivery (this (runtime w)) cb].
Proof.
  intros Hready Htimers. unfold fire, stamped_calls. rewrite Htimers.
  destruct cb as [tabID payload].
  unfold exec, run_callback, requestGenerativeAIAnswer, delivery. unfold_M.
  rewrite Hready. cbn [fst snd runtime now timers log this switch].
  case_bool_decide;
    cbn [fst snd runtime now timers log this schedule add_timer fmap
         list_fmap app];
    (split; [reflexivity|]); rewrite stamped_calls_app, fmap_app; reflexivity.
Qed.

(** Before the UI is ready a retry that fires puts itself back. *)
Lemma fire_waits (w : World) :
  isUIReady (this (runtime w)) = false →
  (timers (fire w)).*2 ≡ₚ (timers w).*2 ∧
  stamped_calls (fire w) = stamped_calls w.
Proof.
  intros Hready. unfold fire, stamped_calls.
  destruct (timers w) as [|[due [tabID payload]] rest] eqn:Htimers;
    [by rewrite Htimers|].
  unfold exec, run_callback, requestGenerativeAIAnswer. unfold_M.
  rewrite Hready. cbn [fst snd runtime now timers log this schedule fmap
    list_fmap app].
  split.
  - rewrite add_timer_callbacks. reflexivity.
  - rewrite stamped_calls_app. cbn. by rewrite app_nil_r.
Qed.

Ltac split_inner :=
  repeat match goal with
  | |- context [get ?v ?n] => destruct (get v n); simpl
  | |- context [is_string ?v ?n] => destruct (is_string v n); simpl
  | |- context [is_undefined ?v] => destruct (is_undefined v); simpl
  | |- context [getTab ?i ?tabs] => destruct (getTab i tabs); simpl
  | |- context [bool_decide ?P] => destruct (bool_decide P); simpl
  | |- context [if isUIReady ?c then _ else _] =>
    destruct (isUIReady c) eqn:?; simpl in *
  | |- context [if onMessageReceived ?c then _ else _] =>
    destruct (onMessageReceived c); simpl
  | |- context [if ?b then _ else _] => destruct b; simpl
  | |- context [match ?x with Some _ => _ | None => _ end] => destruct x; simpl
  end.

Section Running.

Context (isFormButtonCodeTransform : string → bool).
Context (JSON_parse : jsstring → option JsValue).

Lemma turn_ready (w : World) (t : Turn) :
  isUIReady (this (runtime (turn isFormButtonCodeTransform JSON_parse w t))) =
  isUIReady (this (runtime w)) || is_uiReady t.
Proof.
  destruct t as [|m|t]; cbn [turn is_uiReady].
  - by rewrite fire_keeps_fields, orb_false_r.
  - rewrite runtime_exec.
    destruct m as [op|i| |data|ty]; [destruct op|..];
      unfold_methods; unfold_M; rewrite ?orb_false_r, ?orb_true_r;
      split_inner; congruence.
  - by rewrite orb_false_r.
Qed.

Lemma turn_storage (w : World) (t : Turn) :
  writes_registry t = false →
  tabsStorage (this (runtime (turn isFormButtonCodeTransform JSON_parse w t))) =
  tabsStorage (this (runtime w)).
Proof.
  intros Hframe. destruct t as [|m|t]; cbn [turn].
  - by rewrite fire_keeps_fields.
  - rewrite runtime_exec.
    pose proof (invoke_storage isFormButtonCodeTransform JSON_parse
                  (runtime w) m) as Hst.
    destruct m as [op|i| |data|ty]; try done. by destruct op.
  - done.
Qed.

(** X12. The router is ready after a schedule exactly if it was ready
    before or the schedule calls [uiReady]: nothing but [uiReady] sets the
    flag and nothing ever clears it. *)
Theorem ready_after (ts : list Turn) (w : World) :
  isUIReady (this (runtime (turns isFormButtonCodeTransform JSON_parse ts w))) =
  isUIReady (this (runtime w)) || existsb is_uiReady ts.
Proof.
  revert w. induction ts as [|t ts IH]; intros w; cbn.
  - by rewrite orb_false_r.
  - unfold turns in IH. rewrite IH, turn_ready. by rewrite orb_assoc.
Qed.

(** X13. Only [onTabAdd], [onTabRemove] and [onTabChange] write to the
    registry: a schedule without them, whatever else it holds (retries,
    [uiReady], host messages, every other event), leaves the registry as it
    was. *)
Theorem registry_frame (ts : list Turn) (w : World) :
  Forall (λ t, writes_registry t = false) ts →
  tabsStorage (this (runtime (turns isFormButtonCodeTransform JSON_parse ts w))) =
  tabsStorage (this (runtime w)).
Proof.
  revert w. induction ts as [|t ts IH]; intros w Hframe; [done|].
  apply Forall_cons in Hframe as [Ht Hts]. cbn.
  unfold turns in IH. by rewrite IH, turn_storage.
Qed.

End Running.

(** X14. With the UI ready, firing the pending retries one after the other
    empties the timer queue: each pending request is delivered exactly once,
    in the order the timers are due, to the handler of its tab's category,
    and none is put back. *)
Theorem retries_drain (w : World) :
  isUIReady (this (runtime w)) = true →
  let w' := Nat.iter (length (timers w)) fire w in
  timers w' = [] ∧
  (stamped_calls w').*2 =
  (stamped_calls w).*2 ++ (delivery (this (runtime w)) <$> (timers w).*2).
Proof.
  cbv zeta. remember (timers w) as ts eqn:Hts. revert w Hts.
  induction ts as [|[due cb] rest IH]; intros w Hts Hready.
  - cbn. by rewrite app_nil_r.
  - cbn [length]. rewrite Nat.iter_succ_r.
    destruct (fire_delivers w due cb rest Hready (eq_sym Hts)) as [Hrest Hcall].
    assert (Hready' : isUIReady (this (runtime (fire w))) = true)
      by (by rewrite fire_keeps_fields).
    destruct (IH (fire w) (eq_sym Hrest) Hready') as [Hnone Hcalls].
    split; [exact Hnone|].
    rewrite Hcalls, Hcall, fire_keeps_fields. cbn. by rewrite <- app_assoc.
Qed.

(** X15. Before the UI is ready no pending request is lost and none is
    delivered: however many retries fire, the same requests are pending
    afterwards and no handler has been called. *)
Theorem retries_wait (w : World) (n : nat) :
  isUIReady (this (runtime w)) = false →
  let w' := Nat.iter n fire w in
  (timers w').*2 ≡ₚ (timers w).*2 ∧
  stamped_calls w' = stamped_calls w ∧
  this (runtime w') = this (runtime w).
Proof.
  intros Hready. cbv zeta. induction n as [|n IH]; [done|].
  change (Nat.iter (S n) fire w) with (fire (Nat.iter n fire w)).
  destruct IH as (Hperm & Hcalls & Hthis).
  assert (Hready' : isUIReady (this (runtime (Nat.iter n fire w))) = false)
    by (by rewrite Hthis).
  destruct (fire_waits _ Hready') as [Hperm' Hcalls'].
  split_and!.
  - by rewrite Hperm'.
  - by rewrite Hcalls'.
  - by rewrite fire_keeps_fields.
Qed.

(** A retry that fires before the UI is ready makes one more promise and
    settles none. *)
Lemma fire_allocates (w : World) (due : nat) (tabID : string)
  (payload : ChatPayload) (rest : list (nat * Callback)) :
  isUIReady (this (runtime w)) = false →
  timers w = (due, again tabID payload) :: rest →
  nextPromise (runtime (fire w)) = S (nextPromise (runtime w)) ∧
  trace (fire w) =
  trace w ++ [newPromise (nextPromise (runtime w));
              setTimeout (again tabID payload) 2000].
Proof.
  intros Hready Htimers. unfold fire, trace. rewrite Htimers.
  unfold exec, run_callback, requestGenerativeAIAnswer. unfold_M.
  rewrite Hready. cbn [fst snd runtime now timers log this nextPromise].
  split; [reflexivity|]. by rewrite fmap_app.
Qed.

(** X16. Every retry leaves one more promise behind. When a single call is
    made before the UI is ready, then after [n] retries [n + 1] promises
    have been made, one by the call and one by each retry, and all of them
    are pending. *)
Theorem retries_pile_up (c : Connector) (t0 : nat) (tabID : string)
  (payload : ChatPayload) (n : nat) :
  isUIReady c = false →
  let w := Nat.iter n fire
             (exec (requestGenerativeAIAnswer tabID payload) (start c t0)) in
  nextPromise (runtime w) = S n ∧
  ∀ p, p ≤ n →
    newPromise p ∈ trace w ∧ promise_state p (trace w) = Pending.
Proof.
  intros Hready. cbv zeta.
  set (w0 := exec (requestGenerativeAIAnswer tabID payload) (start c t0)).
  assert (Hall : nextPromise (runtime (Nat.iter n fire w0)) = S n ∧
                 omap settles (trace (Nat.iter n fire w0)) = [] ∧
                 ∀ p, p ≤ n → newPromise p ∈ trace (Nat.iter n fire w0)).
  { induction n as [|n IH].
    - subst w0. unfold exec, start, trace, requestGenerativeAIAnswer. unfold_M.
      rewrite Hready. cbn. split_and!; [done | done |].
      intros p Hp. assert (p = 0) as -> by lia. apply list_elem_of_here.
    - change (Nat.iter (S n) fire w0) with (fire (Nat.iter n fire w0)).
      destruct IH as (Hnext & Hsilent & Hmade).
      destruct (waiting c t0 tabID payload n Hready) as (Hthis & _ & Htimers & _).
      fold w0 in Hthis, Htimers.
      assert (Hready' : isUIReady (this (runtime (Nat.iter n fire w0))) = false)
        by (by rewrite Hthis).
      destruct (fire_allocates _ _ _ _ _ Hready' Htimers) as [Hnext' Htrace].
      rewrite Hnext', Htrace, Hnext, omap_app, Hsilent.
      split_and!; [done | done |].
      intros p Hp. rewrite elem_of_app.
      destruct (decide (p = S n)) as [->|Hne].
      + right. apply list_elem_of_here.
      + left. apply Hmade. lia. }
  destruct Hall as (Hnext & Hsilent & Hmade).
  split; [exact Hnext|]. intros p Hp. split; [by apply Hmade|].
  apply promise_state_unsettled. rewrite Hsilent. apply not_elem_of_nil.
Qed.

(** ** The further properties at concrete inputs *)

Lemma handleMessageReceive_reads_no_field_witness :
  effects (run (handleMessageReceive JSON.parse
                  (Some (json "{'sender':'CWChat','tabID':'t9'}")))
             (booted new_connector)) =
  effects (run (handleMessageReceive JSON.parse
                  (Some (json "{'sender':'CWChat','tabID':'t9'}")))
             (booted (with_tabs {["t1" := tab_of "t1" "featuredev" true]} true))).
Proof.
  apply (handleMessageReceive_reads_no_field JSON.parse
           (booted new_connector)
           (booted (with_tabs {["t1" := tab_of "t1" "featuredev" true]} true))).
  reflexivity.
Defined.

Lemma reached_handlers_witness :
  let rt := booted (with_tabs {["t1" := tab_of "t1" "featuredev" true]} true) in
  featureDevChatConnector ∈
    targets (effects (run (perform example_isFormButton
                             (Op.onOpenDiff "t1" "src/a.ts" false)) rt)) ∧
  category (this rt) "t1" = Some "featuredev".
Proof.
  cbv zeta.
  assert (Hin : featureDevChatConnector ∈
    targets (effects (run (perform example_isFormButton
                             (Op.onOpenDiff "t1" "src/a.ts" false))
      (booted (with_tabs {["t1" := tab_of "t1" "featuredev" true]} true)))))
    by apply list_elem_of_here.
  split; [exact Hin|].
  exact (reached_handlers example_isFormButton _ _ _ Hin).
Defined.

(** The selection flag and the other tabs play no part in the routing. *)
Lemma dispatch_reads_category_witness :
  effects (run (perform example_isFormButton (Op.onStopChatResponse "t1"))
             (booted (with_tabs {["t1" := tab_of "t1" "featuredev" true]} true))) =
  effects (run (perform example_isFormButton (Op.onStopChatResponse "t1"))
             (booted (with_tabs {["t1" := tab_of "t1" "featuredev" false;
                                  "t2" := tab_of "t2" "cwc" true]} false))).
Proof.
  apply (dispatch_reads_category example_isFormButton
           (booted (with_tabs {["t1" := tab_of "t1" "featuredev" true]} true))
           (booted (with_tabs {["t1" := tab_of "t1" "featuredev" false;
                                "t2" := tab_of "t2" "cwc" true]} false))
           (Op.onStopChatResponse "t1")); reflexivity.
Defined.

Lemma copy_and_insert_route_alike_witness :
  let rt := booted (with_tabs {["t1" := tab_of "t1" "featuredev" true]} true) in
  let copy :=
    omap call_shape (effects (run (onCopyCodeToClipboard "t1" "m1"
      (Str "let x = 1") (Str "block") Undefined (Str "e1") (Num 0) (Num 1)
      Undefined (Str "typescript")) rt)) in
  ∃ args, (featureDevChatConnector, args) ∈ copy ∧
          args = [Str "t1"; Str "let x = 1"; Str "block"; Undefined].
Proof.
  cbv zeta.
  destruct (copy_and_insert_route_alike
              (booted (with_tabs {["t1" := tab_of "t1" "featuredev" true]} true))
              "t1" "m1" (Str "let x = 1") (Str "block") Undefined (Str "e1")
              (Num 0) (Num 1) Undefined (Str "typescript")) as [_ Hargs].
  eexists. split; [apply list_elem_of_here|].
  apply Hargs. apply list_elem_of_here.
Defined.

Lemma onTabAdd_then_onTabRemove_witness :
  let rt := booted (with_tabs {["t2" := tab_of "t2" "cwc" true]} true) in
  getTab "t1" (tabsStorage (this rt)) = None ∧
  effects (run (onTabAdd "t1" ;; onTabRemove "t1") rt) = [] ∧
  getTab "t1" (tabsStorage (this (final
    (run (onTabAdd "t1" ;; onTabRemove "t1") rt)))) = None.
Proof.
  cbv zeta.
  assert (Hnone : getTab "t1" (tabsStorage (this
    (booted (with_tabs {["t2" := tab_of "t2" "cwc" true]} true)))) = None)
    by reflexivity.
  destruct (onTabAdd_then_onTabRemove _ "t1" Hnone)
    as (_ & Heffects & Hgone & _).
  split; [exact Hnone|]. split; [exact Heffects | exact Hgone].
Defined.

Lemma registry_frame_witness :
  let tabs : gmap string Tab := {["t1" := tab_of "t1" "cwc" true]} in
  tabsStorage (this (runtime (turns example_isFormButton JSON.parse
    [Invoke (Method.dispatch (Op.requestGenerativeAIAnswer "t1" hello));
     Invoke (Method.handleMessageReceive (Some (js "{")));
     Fire;
     Invoke Method.uiReady;
     Invoke (Method.dispatch (Op.onFollowUpClicked "t1" "m1" (Str "explain")));
     Fire]
    (start (constructor tabs true) 0)))) = tabs.
Proof.
  cbv zeta.
  assert (Hframe : Forall (λ t, writes_registry t = false)
    [Invoke (Method.dispatch (Op.requestGenerativeAIAnswer "t1" hello));
     Invoke (Method.handleMessageReceive (Some (js "{")));
     Fire;
     Invoke Method.uiReady;
     Invoke (Method.dispatch (Op.onFollowUpClicked "t1" "m1" (Str "explain")));
     Fire]) by repeat constructor.
  exact (registry_frame example_isFormButton JSON.parse _
    (start (constructor {["t1" := tab_of "t1" "cwc" true]} true) 0) Hframe).
Defined.

(** Two requests are waiting, one for a chat tab and one for a feature-dev
    tab: retries keep both pending, and once the UI is ready two firings
    deliver both, each to its handler. *)
Lemma retries_wait_witness :
  (timers (Nat.iter 3 fire two_waiting)).*2 ≡ₚ [again "t1" hello; again "t2" hello] ∧
  stamped_calls (Nat.iter 3 fire two_waiting) = [].
Proof.
  destruct (retries_wait two_waiting 3 eq_refl) as (Hperm & Hcalls & _).
  split; [exact Hperm | exact Hcalls].
Defined.

Lemma retries_drain_witness :
  let w := exec uiReady two_waiting in
  timers (Nat.iter 2 fire w) = [] ∧
  (stamped_calls (Nat.iter 2 fire w)).*2 =
  [Call cwChatConnector "requestGenerativeAIAnswer" [Str "t1"; Payload hello];
   Call featureDevChatConnector "requestGenerativeAIAnswer"
     [Str "t2"; Payload hello]].
Proof.
  cbv zeta.
  exact (retries_drain (exec uiReady two_waiting) eq_refl).
Defined.

Lemma retries_pile_up_witness :
  let w := Nat.iter 2 fire
             (exec (requestGenerativeAIAnswer "t1" hello) (start new_connector 0)) in
  nextPromise (runtime w) = 3 ∧ promise_state 2 (trace w) = Pending.
Proof.
  cbv zeta.
  destruct (retries_pile_up new_connector 0 "t1" hello 2 eq_refl) as [Hnext Hall].
  split; [exact Hnext|]. destruct (Hall 2) as [_ Hpending]; [lia | exact Hpending].
Defined.
